(** * NebulaMind: source ingestion, notebook store and source filter

    A shallow embedding of the parts of NebulaMind that turn user input
    into [Source] records and keep them in a [Notebook]:

    - [services/ai]: [fetchWebsiteContent], [processFileWithGemini],
      [postJson] and the request helpers built on it;
    - [components/SourcesTab]: [handleAddSource], [handleFileSelect],
      [displayedSources], the source card and its edit button;
    - [components/NotebookView]: [saveTitle], [addSource],
      [deleteSource], [editSource];
    - [components/ChatTab]: [sendMessage];
    - [components/QuizTab]: [handleGenerate], [recordAnswer],
      [nextQuestion] and the results view.

    A JavaScript string is modelled by the [string] of its UTF-8 bytes,
    so that a string literal of this file is the string it shows (a
    string with an unpaired surrogate has no such form and is left out).
    Equality, [startsWith], [includes] and the test for the empty string
    give the same answer on the bytes as on the code units; the
    operations that go by characters ([trim], [toLowerCase]) first split
    the bytes into characters.  The asynchronous functions are modelled
    sequentially, and everything they read from the outside (network,
    file contents, clock, random ids) is taken from an explicit
    [World] record. *)

From Stdlib Require Import Bool List ZArith Lia Ascii String DecimalString.
Import ListNotations.
Open Scope string_scope.
Open Scope bool_scope.

(** ** Unicode case data

    The tables the lower-casing of strings reads, from the Unicode
    Character Database, version 14.0: code points are numbers, the
    lower-case forms are given as the strings they are. *)

Module Unicode.

Local Open Scope N_scope.

(** The code points that have a lower-case form of their own, each with
    that form (the full mapping: U+0130 gives two code points). *)
Definition lowerTable : list (N * string) :=
  [(65, "a"); (66, "b"); (67, "c"); (68, "d"); (69, "e"); (70, "f"); (71, "g"); (72, "h");
   (73, "i"); (74, "j"); (75, "k"); (76, "l"); (77, "m"); (78, "n"); (79, "o"); (80, "p");
   (81, "q"); (82, "r"); (83, "s"); (84, "t"); (85, "u"); (86, "v"); (87, "w"); (88, "x");
   (89, "y"); (90, "z"); (192, "à"); (193, "á"); (194, "â"); (195, "ã"); (196, "ä"); (197, "å");
   (198, "æ"); (199, "ç"); (200, "è"); (201, "é"); (202, "ê"); (203, "ë"); (204, "ì"); (205, "í");
   (206, "î"); (207, "ï"); (208, "ð"); (209, "ñ"); (210, "ò"); (211, "ó"); (212, "ô"); (213, "õ");
   (214, "ö"); (216, "ø"); (217, "ù"); (218, "ú"); (219, "û"); (220, "ü"); (221, "ý"); (222, "þ");
   (256, "ā"); (258, "ă"); (260, "ą"); (262, "ć"); (264, "ĉ"); (266, "ċ"); (268, "č"); (270, "ď");
   (272, "đ"); (274, "ē"); (276, "ĕ"); (278, "ė"); (280, "ę"); (282, "ě"); (284, "ĝ"); (286, "ğ");
   (288, "ġ"); (290, "ģ"); (292, "ĥ"); (294, "ħ"); (296, "ĩ"); (298, "ī"); (300, "ĭ"); (302, "į");
   (304, "i̇"); (306, "ĳ"); (308, "ĵ"); (310, "ķ"); (313, "ĺ"); (315, "ļ"); (317, "ľ"); (319, "ŀ");
   (321, "ł"); (323, "ń"); (325, "ņ"); (327, "ň"); (330, "ŋ"); (332, "ō"); (334, "ŏ"); (336, "ő");
   (338, "œ"); (340, "ŕ"); (342, "ŗ"); (344, "ř"); (346, "ś"); (348, "ŝ"); (350, "ş"); (352, "š");
   (354, "ţ"); (356, "ť"); (358, "ŧ"); (360, "ũ"); (362, "ū"); (364, "ŭ"); (366, "ů"); (368, "ű");
   (370, "ų"); (372, "ŵ"); (374, "ŷ"); (376, "ÿ"); (377, "ź"); (379, "ż"); (381, "ž"); (385, "ɓ");
   (386, "ƃ"); (388, "ƅ"); (390, "ɔ"); (391, "ƈ"); (393, "ɖ"); (394, "ɗ"); (395, "ƌ"); (398, "ǝ");
   (399, "ə"); (400, "ɛ"); (401, "ƒ"); (403, "ɠ"); (404, "ɣ"); (406, "ɩ"); (407, "ɨ"); (408, "ƙ");
   (412, "ɯ"); (413, "ɲ"); (415, "ɵ"); (416, "ơ"); (418, "ƣ"); (420, "ƥ"); (422, "ʀ"); (423, "ƨ");
   (425, "ʃ"); (428, "ƭ"); (430, "ʈ"); (431, "ư"); (433, "ʊ"); (434, "ʋ"); (435, "ƴ"); (437, "ƶ");
   (439, "ʒ"); (440, "ƹ"); (444, "ƽ"); (452, "ǆ"); (453, "ǆ"); (455, "ǉ"); (456, "ǉ"); (458, "ǌ");
   (459, "ǌ"); (461, "ǎ"); (463, "ǐ"); (465, "ǒ"); (467, "ǔ"); (469, "ǖ"); (471, "ǘ"); (473, "ǚ");
   (475, "ǜ"); (478, "ǟ"); (480, "ǡ"); (482, "ǣ"); (484, "ǥ"); (486, "ǧ"); (488, "ǩ"); (490, "ǫ");
   (492, "ǭ"); (494, "ǯ"); (497, "ǳ"); (498, "ǳ"); (500, "ǵ"); (502, "ƕ"); (503, "ƿ"); (504, "ǹ");
   (506, "ǻ"); (508, "ǽ"); (510, "ǿ"); (512, "ȁ"); (514, "ȃ"); (516, "ȅ"); (518, "ȇ"); (520, "ȉ");
   (522, "ȋ"); (524, "ȍ"); (526, "ȏ"); (528, "ȑ"); (530, "ȓ"); (532, "ȕ"); (534, "ȗ"); (536, "ș");
   (538, "ț"); (540, "ȝ"); (542, "ȟ"); (544, "ƞ"); (546, "ȣ"); (548, "ȥ"); (550, "ȧ"); (552, "ȩ");
   (554, "ȫ"); (556, "ȭ"); (558, "ȯ"); (560, "ȱ"); (562, "ȳ"); (570, "ⱥ"); (571, "ȼ"); (573, "ƚ");
   (574, "ⱦ"); (577, "ɂ"); (579, "ƀ"); (580, "ʉ"); (581, "ʌ"); (582, "ɇ"); (584, "ɉ"); (586, "ɋ");
   (588, "ɍ"); (590, "ɏ"); (880, "ͱ"); (882, "ͳ"); (886, "ͷ"); (895, "ϳ"); (902, "ά"); (904, "έ");
   (905, "ή"); (906, "ί"); (908, "ό"); (910, "ύ"); (911, "ώ"); (913, "α"); (914, "β"); (915, "γ");
   (916, "δ"); (917, "ε"); (918, "ζ"); (919, "η"); (920, "θ"); (921, "ι"); (922, "κ"); (923, "λ");
   (924, "μ"); (925, "ν"); (926, "ξ"); (927, "ο"); (928, "π"); (929, "ρ"); (931, "σ"); (932, "τ");
   (933, "υ"); (934, "φ"); (935, "χ"); (936, "ψ"); (937, "ω"); (938, "ϊ"); (939, "ϋ"); (975, "ϗ");
   (984, "ϙ"); (986, "ϛ"); (988, "ϝ"); (990, "ϟ"); (992, "ϡ"); (994, "ϣ"); (996, "ϥ"); (998, "ϧ");
   (1000, "ϩ"); (1002, "ϫ"); (1004, "ϭ"); (1006, "ϯ"); (1012, "θ"); (1015, "ϸ"); (1017, "ϲ"); (1018, "ϻ");
   (1021, "ͻ"); (1022, "ͼ"); (1023, "ͽ"); (1024, "ѐ"); (1025, "ё"); (1026, "ђ"); (1027, "ѓ"); (1028, "є");
   (1029, "ѕ"); (1030, "і"); (1031, "ї"); (1032, "ј"); (1033, "љ"); (1034, "њ"); (1035, "ћ"); (1036, "ќ");
   (1037, "ѝ"); (1038, "ў"); (1039, "џ"); (1040, "а"); (1041, "б"); (1042, "в"); (1043, "г"); (1044, "д");
   (1045, "е"); (1046, "ж"); (1047, "з"); (1048, "и"); (1049, "й"); (1050, "к"); (1051, "л"); (1052, "м");
   (1053, "н"); (1054, "о"); (1055, "п"); (1056, "р"); (1057, "с"); (1058, "т"); (1059, "у"); (1060, "ф");
   (1061, "х"); (1062, "ц"); (1063, "ч"); (1064, "ш"); (1065, "щ"); (1066, "ъ"); (1067, "ы"); (1068, "ь");
   (1069, "э"); (1070, "ю"); (1071, "я"); (1120, "ѡ"); (1122, "ѣ"); (1124, "ѥ"); (1126, "ѧ"); (1128, "ѩ");
   (1130, "ѫ"); (1132, "ѭ"); (1134, "ѯ"); (1136, "ѱ"); (1138, "ѳ"); (1140, "ѵ"); (1142, "ѷ"); (1144, "ѹ");
   (1146, "ѻ"); (1148, "ѽ"); (1150, "ѿ"); (1152, "ҁ"); (1162, "ҋ"); (1164, "ҍ"); (1166, "ҏ"); (1168, "ґ");
   (1170, "ғ"); (1172, "ҕ"); (1174, "җ"); (1176, "ҙ"); (1178, "қ"); (1180, "ҝ"); (1182, "ҟ"); (1184, "ҡ");
   (1186, "ң"); (1188, "ҥ"); (1190, "ҧ"); (1192, "ҩ"); (1194, "ҫ"); (1196, "ҭ"); (1198, "ү"); (1200, "ұ");
   (1202, "ҳ"); (1204, "ҵ"); (1206, "ҷ"); (1208, "ҹ"); (1210, "һ"); (1212, "ҽ"); (1214, "ҿ"); (1216, "ӏ");
   (1217, "ӂ"); (1219, "ӄ"); (1221, "ӆ"); (1223, "ӈ"); (1225, "ӊ"); (1227, "ӌ"); (1229, "ӎ"); (1232, "ӑ");
   (1234, "ӓ"); (1236, "ӕ"); (1238, "ӗ"); (1240, "ә"); (1242, "ӛ"); (1244, "ӝ"); (1246, "ӟ"); (1248, "ӡ");
   (1250, "ӣ"); (1252, "ӥ"); (1254, "ӧ"); (1256, "ө"); (1258, "ӫ"); (1260, "ӭ"); (1262, "ӯ"); (1264, "ӱ");
   (1266, "ӳ"); (1268, "ӵ"); (1270, "ӷ"); (1272, "ӹ"); (1274, "ӻ"); (1276, "ӽ"); (1278, "ӿ"); (1280, "ԁ");
   (1282, "ԃ"); (1284, "ԅ"); (1286, "ԇ"); (1288, "ԉ"); (1290, "ԋ"); (1292, "ԍ"); (1294, "ԏ"); (1296, "ԑ");
   (1298, "ԓ"); (1300, "ԕ"); (1302, "ԗ"); (1304, "ԙ"); (1306, "ԛ"); (1308, "ԝ"); (1310, "ԟ"); (1312, "ԡ");
   (1314, "ԣ"); (1316, "ԥ"); (1318, "ԧ"); (1320, "ԩ"); (1322, "ԫ"); (1324, "ԭ"); (1326, "ԯ"); (1329, "ա");
   (1330, "բ"); (1331, "գ"); (1332, "դ"); (1333, "ե"); (1334, "զ"); (1335, "է"); (1336, "ը"); (1337, "թ");
   (1338, "ժ"); (1339, "ի"); (1340, "լ"); (1341, "խ"); (1342, "ծ"); (1343, "կ"); (1344, "հ"); (1345, "ձ");
   (1346, "ղ"); (1347, "ճ"); (1348, "մ"); (1349, "յ"); (1350, "ն"); (1351, "շ"); (1352, "ո"); (1353, "չ");
   (1354, "պ"); (1355, "ջ"); (1356, "ռ"); (1357, "ս"); (1358, "վ"); (1359, "տ"); (1360, "ր"); (1361, "ց");
   (1362, "ւ"); (1363, "փ"); (1364, "ք"); (1365, "օ"); (1366, "ֆ"); (4256, "ⴀ"); (4257, "ⴁ"); (4258, "ⴂ");
   (4259, "ⴃ"); (4260, "ⴄ"); (4261, "ⴅ"); (4262, "ⴆ"); (4263, "ⴇ"); (4264, "ⴈ"); (4265, "ⴉ"); (4266, "ⴊ");
   (4267, "ⴋ"); (4268, "ⴌ"); (4269, "ⴍ"); (4270, "ⴎ"); (4271, "ⴏ"); (4272, "ⴐ"); (4273, "ⴑ"); (4274, "ⴒ");
   (4275, "ⴓ"); (4276, "ⴔ"); (4277, "ⴕ"); (4278, "ⴖ"); (4279, "ⴗ"); (4280, "ⴘ"); (4281, "ⴙ"); (4282, "ⴚ");
   (4283, "ⴛ"); (4284, "ⴜ"); (4285, "ⴝ"); (4286, "ⴞ"); (4287, "ⴟ"); (4288, "ⴠ"); (4289, "ⴡ"); (4290, "ⴢ");
   (4291, "ⴣ"); (4292, "ⴤ"); (4293, "ⴥ"); (4295, "ⴧ"); (4301, "ⴭ"); (5024, "ꭰ"); (5025, "ꭱ"); (5026, "ꭲ");
   (5027, "ꭳ"); (5028, "ꭴ"); (5029, "ꭵ"); (5030, "ꭶ"); (5031, "ꭷ"); (5032, "ꭸ"); (5033, "ꭹ"); (5034, "ꭺ");
   (5035, "ꭻ"); (5036, "ꭼ"); (5037, "ꭽ"); (5038, "ꭾ"); (5039, "ꭿ"); (5040, "ꮀ"); (5041, "ꮁ"); (5042, "ꮂ");
   (5043, "ꮃ"); (5044, "ꮄ"); (5045, "ꮅ"); (5046, "ꮆ"); (5047, "ꮇ"); (5048, "ꮈ"); (5049, "ꮉ"); (5050, "ꮊ");
   (5051, "ꮋ"); (5052, "ꮌ"); (5053, "ꮍ"); (5054, "ꮎ"); (5055, "ꮏ"); (5056, "ꮐ"); (5057, "ꮑ"); (5058, "ꮒ");
   (5059, "ꮓ"); (5060, "ꮔ"); (5061, "ꮕ"); (5062, "ꮖ"); (5063, "ꮗ"); (5064, "ꮘ"); (5065, "ꮙ"); (5066, "ꮚ");
   (5067, "ꮛ"); (5068, "ꮜ"); (5069, "ꮝ"); (5070, "ꮞ"); (5071, "ꮟ"); (5072, "ꮠ"); (5073, "ꮡ"); (5074, "ꮢ");
   (5075, "ꮣ"); (5076, "ꮤ"); (5077, "ꮥ"); (5078, "ꮦ"); (5079, "ꮧ"); (5080, "ꮨ"); (5081, "ꮩ"); (5082, "ꮪ");
   (5083, "ꮫ"); (5084, "ꮬ"); (5085, "ꮭ"); (5086, "ꮮ"); (5087, "ꮯ"); (5088, "ꮰ"); (5089, "ꮱ"); (5090, "ꮲ");
   (5091, "ꮳ"); (5092, "ꮴ"); (5093, "ꮵ"); (5094, "ꮶ"); (5095, "ꮷ"); (5096, "ꮸ"); (5097, "ꮹ"); (5098, "ꮺ");
   (5099, "ꮻ"); (5100, "ꮼ"); (5101, "ꮽ"); (5102, "ꮾ"); (5103, "ꮿ"); (5104, "ᏸ"); (5105, "ᏹ"); (5106, "ᏺ");
   (5107, "ᏻ"); (5108, "ᏼ"); (5109, "ᏽ"); (7312, "ა"); (7313, "ბ"); (7314, "გ"); (7315, "დ"); (7316, "ე");
   (7317, "ვ"); (7318, "ზ"); (7319, "თ"); (7320, "ი"); (7321, "კ"); (7322, "ლ"); (7323, "მ"); (7324, "ნ");
   (7325, "ო"); (7326, "პ"); (7327, "ჟ"); (7328, "რ"); (7329, "ს"); (7330, "ტ"); (7331, "უ"); (7332, "ფ");
   (7333, "ქ"); (7334, "ღ"); (7335, "ყ"); (7336, "შ"); (7337, "ჩ"); (7338, "ც"); (7339, "ძ"); (7340, "წ");
   (7341, "ჭ"); (7342, "ხ"); (7343, "ჯ"); (7344, "ჰ"); (7345, "ჱ"); (7346, "ჲ"); (7347, "ჳ"); (7348, "ჴ");
   (7349, "ჵ"); (7350, "ჶ"); (7351, "ჷ"); (7352, "ჸ"); (7353, "ჹ"); (7354, "ჺ"); (7357, "ჽ"); (7358, "ჾ");
   (7359, "ჿ"); (7680, "ḁ"); (7682, "ḃ"); (7684, "ḅ"); (7686, "ḇ"); (7688, "ḉ"); (7690, "ḋ"); (7692, "ḍ");
   (7694, "ḏ"); (7696, "ḑ"); (7698, "ḓ"); (7700, "ḕ"); (7702, "ḗ"); (7704, "ḙ"); (7706, "ḛ"); (7708, "ḝ");
   (7710, "ḟ"); (7712, "ḡ"); (7714, "ḣ"); (7716, "ḥ"); (7718, "ḧ"); (7720, "ḩ"); (7722, "ḫ"); (7724, "ḭ");
   (7726, "ḯ"); (7728, "ḱ"); (7730, "ḳ"); (7732, "ḵ"); (7734, "ḷ"); (7736, "ḹ"); (7738, "ḻ"); (7740, "ḽ");
   (7742, "ḿ"); (7744, "ṁ"); (7746, "ṃ"); (7748, "ṅ"); (7750, "ṇ"); (7752, "ṉ"); (7754, "ṋ"); (7756, "ṍ");
   (7758, "ṏ"); (7760, "ṑ"); (7762, "ṓ"); (7764, "ṕ"); (7766, "ṗ"); (7768, "ṙ"); (7770, "ṛ"); (7772, "ṝ");
   (7774, "ṟ"); (7776, "ṡ"); (7778, "ṣ"); (7780, "ṥ"); (7782, "ṧ"); (7784, "ṩ"); (7786, "ṫ"); (7788, "ṭ");
   (7790, "ṯ"); (7792, "ṱ"); (7794, "ṳ"); (7796, "ṵ"); (7798, "ṷ"); (7800, "ṹ"); (7802, "ṻ"); (7804, "ṽ");
   (7806, "ṿ"); (7808, "ẁ"); (7810, "ẃ"); (7812, "ẅ"); (7814, "ẇ"); (7816, "ẉ"); (7818, "ẋ"); (7820, "ẍ");
   (7822, "ẏ"); (7824, "ẑ"); (7826, "ẓ"); (7828, "ẕ"); (7838, "ß"); (7840, "ạ"); (7842, "ả"); (7844, "ấ");
   (7846, "ầ"); (7848, "ẩ"); (7850, "ẫ"); (7852, "ậ"); (7854, "ắ"); (7856, "ằ"); (7858, "ẳ"); (7860, "ẵ");
   (7862, "ặ"); (7864, "ẹ"); (7866, "ẻ"); (7868, "ẽ"); (7870, "ế"); (7872, "ề"); (7874, "ể"); (7876, "ễ");
   (7878, "ệ"); (7880, "ỉ"); (7882, "ị"); (7884, "ọ"); (7886, "ỏ"); (7888, "ố"); (7890, "ồ"); (7892, "ổ");
   (7894, "ỗ"); (7896, "ộ"); (7898, "ớ"); (7900, "ờ"); (7902, "ở"); (7904, "ỡ"); (7906, "ợ"); (7908, "ụ");
   (7910, "ủ"); (7912, "ứ"); (7914, "ừ"); (7916, "ử"); (7918, "ữ"); (7920, "ự"); (7922, "ỳ"); (7924, "ỵ");
   (7926, "ỷ"); (7928, "ỹ"); (7930, "ỻ"); (7932, "ỽ"); (7934, "ỿ"); (7944, "ἀ"); (7945, "ἁ"); (7946, "ἂ");
   (7947, "ἃ"); (7948, "ἄ"); (7949, "ἅ"); (7950, "ἆ"); (7951, "ἇ"); (7960, "ἐ"); (7961, "ἑ"); (7962, "ἒ");
   (7963, "ἓ"); (7964, "ἔ"); (7965, "ἕ"); (7976, "ἠ"); (7977, "ἡ"); (7978, "ἢ"); (7979, "ἣ"); (7980, "ἤ");
   (7981, "ἥ"); (7982, "ἦ"); (7983, "ἧ"); (7992, "ἰ"); (7993, "ἱ"); (7994, "ἲ"); (7995, "ἳ"); (7996, "ἴ");
   (7997, "ἵ"); (7998, "ἶ"); (7999, "ἷ"); (8008, "ὀ"); (8009, "ὁ"); (8010, "ὂ"); (8011, "ὃ"); (8012, "ὄ");
   (8013, "ὅ"); (8025, "ὑ"); (8027, "ὓ"); (8029, "ὕ"); (8031, "ὗ"); (8040, "ὠ"); (8041, "ὡ"); (8042, "ὢ");
   (8043, "ὣ"); (8044, "ὤ"); (8045, "ὥ"); (8046, "ὦ"); (8047, "ὧ"); (8072, "ᾀ"); (8073, "ᾁ"); (8074, "ᾂ");
   (8075, "ᾃ"); (8076, "ᾄ"); (8077, "ᾅ"); (8078, "ᾆ"); (8079, "ᾇ"); (8088, "ᾐ"); (8089, "ᾑ"); (8090, "ᾒ");
   (8091, "ᾓ"); (8092, "ᾔ"); (8093, "ᾕ"); (8094, "ᾖ"); (8095, "ᾗ"); (8104, "ᾠ"); (8105, "ᾡ"); (8106, "ᾢ");
   (8107, "ᾣ"); (8108, "ᾤ"); (8109, "ᾥ"); (8110, "ᾦ"); (8111, "ᾧ"); (8120, "ᾰ"); (8121, "ᾱ"); (8122, "ὰ");
   (8123, "ά"); (8124, "ᾳ"); (8136, "ὲ"); (8137, "έ"); (8138, "ὴ"); (8139, "ή"); (8140, "ῃ"); (8152, "ῐ");
   (8153, "ῑ"); (8154, "ὶ"); (8155, "ί"); (8168, "ῠ"); (8169, "ῡ"); (8170, "ὺ"); (8171, "ύ"); (8172, "ῥ");
   (8184, "ὸ"); (8185, "ό"); (8186, "ὼ"); (8187, "ώ"); (8188, "ῳ"); (8486, "ω"); (8490, "k"); (8491, "å");
   (8498, "ⅎ"); (8544, "ⅰ"); (8545, "ⅱ"); (8546, "ⅲ"); (8547, "ⅳ"); (8548, "ⅴ"); (8549, "ⅵ"); (8550, "ⅶ");
   (8551, "ⅷ"); (8552, "ⅸ"); (8553, "ⅹ"); (8554, "ⅺ"); (8555, "ⅻ"); (8556, "ⅼ"); (8557, "ⅽ"); (8558, "ⅾ");
   (8559, "ⅿ"); (8579, "ↄ"); (9398, "ⓐ"); (9399, "ⓑ"); (9400, "ⓒ"); (9401, "ⓓ"); (9402, "ⓔ"); (9403, "ⓕ");
   (9404, "ⓖ"); (9405, "ⓗ"); (9406, "ⓘ"); (9407, "ⓙ"); (9408, "ⓚ"); (9409, "ⓛ"); (9410, "ⓜ"); (9411, "ⓝ");
   (9412, "ⓞ"); (9413, "ⓟ"); (9414, "ⓠ"); (9415, "ⓡ"); (9416, "ⓢ"); (9417, "ⓣ"); (9418, "ⓤ"); (9419, "ⓥ");
   (9420, "ⓦ"); (9421, "ⓧ"); (9422, "ⓨ"); (9423, "ⓩ"); (11264, "ⰰ"); (11265, "ⰱ"); (11266, "ⰲ"); (11267, "ⰳ");
   (11268, "ⰴ"); (11269, "ⰵ"); (11270, "ⰶ"); (11271, "ⰷ"); (11272, "ⰸ"); (11273, "ⰹ"); (11274, "ⰺ"); (11275, "ⰻ");
   (11276, "ⰼ"); (11277, "ⰽ"); (11278, "ⰾ"); (11279, "ⰿ"); (11280, "ⱀ"); (11281, "ⱁ"); (11282, "ⱂ"); (11283, "ⱃ");
   (11284, "ⱄ"); (11285, "ⱅ"); (11286, "ⱆ"); (11287, "ⱇ"); (11288, "ⱈ"); (11289, "ⱉ"); (11290, "ⱊ"); (11291, "ⱋ");
   (11292, "ⱌ"); (11293, "ⱍ"); (11294, "ⱎ"); (11295, "ⱏ"); (11296, "ⱐ"); (11297, "ⱑ"); (11298, "ⱒ"); (11299, "ⱓ");
   (11300, "ⱔ"); (11301, "ⱕ"); (11302, "ⱖ"); (11303, "ⱗ"); (11304, "ⱘ"); (11305, "ⱙ"); (11306, "ⱚ"); (11307, "ⱛ");
   (11308, "ⱜ"); (11309, "ⱝ"); (11310, "ⱞ"); (11311, "ⱟ"); (11360, "ⱡ"); (11362, "ɫ"); (11363, "ᵽ"); (11364, "ɽ");
   (11367, "ⱨ"); (11369, "ⱪ"); (11371, "ⱬ"); (11373, "ɑ"); (11374, "ɱ"); (11375, "ɐ"); (11376, "ɒ"); (11378, "ⱳ");
   (11381, "ⱶ"); (11390, "ȿ"); (11391, "ɀ"); (11392, "ⲁ"); (11394, "ⲃ"); (11396, "ⲅ"); (11398, "ⲇ"); (11400, "ⲉ");
   (11402, "ⲋ"); (11404, "ⲍ"); (11406, "ⲏ"); (11408, "ⲑ"); (11410, "ⲓ"); (11412, "ⲕ"); (11414, "ⲗ"); (11416, "ⲙ");
   (11418, "ⲛ"); (11420, "ⲝ"); (11422, "ⲟ"); (11424, "ⲡ"); (11426, "ⲣ"); (11428, "ⲥ"); (11430, "ⲧ"); (11432, "ⲩ");
   (11434, "ⲫ"); (11436, "ⲭ"); (11438, "ⲯ"); (11440, "ⲱ"); (11442, "ⲳ"); (11444, "ⲵ"); (11446, "ⲷ"); (11448, "ⲹ");
   (11450, "ⲻ"); (11452, "ⲽ"); (11454, "ⲿ"); (11456, "ⳁ"); (11458, "ⳃ"); (11460, "ⳅ"); (11462, "ⳇ"); (11464, "ⳉ");
   (11466, "ⳋ"); (11468, "ⳍ"); (11470, "ⳏ"); (11472, "ⳑ"); (11474, "ⳓ"); (11476, "ⳕ"); (11478, "ⳗ"); (11480, "ⳙ");
   (11482, "ⳛ"); (11484, "ⳝ"); (11486, "ⳟ"); (11488, "ⳡ"); (11490, "ⳣ"); (11499, "ⳬ"); (11501, "ⳮ"); (11506, "ⳳ");
   (42560, "ꙁ"); (42562, "ꙃ"); (42564, "ꙅ"); (42566, "ꙇ"); (42568, "ꙉ"); (42570, "ꙋ"); (42572, "ꙍ"); (42574, "ꙏ");
   (42576, "ꙑ"); (42578, "ꙓ"); (42580, "ꙕ"); (42582, "ꙗ"); (42584, "ꙙ"); (42586, "ꙛ"); (42588, "ꙝ"); (42590, "ꙟ");
   (42592, "ꙡ"); (42594, "ꙣ"); (42596, "ꙥ"); (42598, "ꙧ"); (42600, "ꙩ"); (42602, "ꙫ"); (42604, "ꙭ"); (42624, "ꚁ");
   (42626, "ꚃ"); (42628, "ꚅ"); (42630, "ꚇ"); (42632, "ꚉ"); (42634, "ꚋ"); (42636, "ꚍ"); (42638, "ꚏ"); (42640, "ꚑ");
   (42642, "ꚓ"); (42644, "ꚕ"); (42646, "ꚗ"); (42648, "ꚙ"); (42650, "ꚛ"); (42786, "ꜣ"); (42788, "ꜥ"); (42790, "ꜧ");
   (42792, "ꜩ"); (42794, "ꜫ"); (42796, "ꜭ"); (42798, "ꜯ"); (42802, "ꜳ"); (42804, "ꜵ"); (42806, "ꜷ"); (42808, "ꜹ");
   (42810, "ꜻ"); (42812, "ꜽ"); (42814, "ꜿ"); (42816, "ꝁ"); (42818, "ꝃ"); (42820, "ꝅ"); (42822, "ꝇ"); (42824, "ꝉ");
   (42826, "ꝋ"); (42828, "ꝍ"); (42830, "ꝏ"); (42832, "ꝑ"); (42834, "ꝓ"); (42836, "ꝕ"); (42838, "ꝗ"); (42840, "ꝙ");
   (42842, "ꝛ"); (42844, "ꝝ"); (42846, "ꝟ"); (42848, "ꝡ"); (42850, "ꝣ"); (42852, "ꝥ"); (42854, "ꝧ"); (42856, "ꝩ");
   (42858, "ꝫ"); (42860, "ꝭ"); (42862, "ꝯ"); (42873, "ꝺ"); (42875, "ꝼ"); (42877, "ᵹ"); (42878, "ꝿ"); (42880, "ꞁ");
   (42882, "ꞃ"); (42884, "ꞅ"); (42886, "ꞇ"); (42891, "ꞌ"); (42893, "ɥ"); (42896, "ꞑ"); (42898, "ꞓ"); (42902, "ꞗ");
   (42904, "ꞙ"); (42906, "ꞛ"); (42908, "ꞝ"); (42910, "ꞟ"); (42912, "ꞡ"); (42914, "ꞣ"); (42916, "ꞥ"); (42918, "ꞧ");
   (42920, "ꞩ"); (42922, "ɦ"); (42923, "ɜ"); (42924, "ɡ"); (42925, "ɬ"); (42926, "ɪ"); (42928, "ʞ"); (42929, "ʇ");
   (42930, "ʝ"); (42931, "ꭓ"); (42932, "ꞵ"); (42934, "ꞷ"); (42936, "ꞹ"); (42938, "ꞻ"); (42940, "ꞽ"); (42942, "ꞿ");
   (42944, "ꟁ"); (42946, "ꟃ"); (42948, "ꞔ"); (42949, "ʂ"); (42950, "ᶎ"); (42951, "ꟈ"); (42953, "ꟊ"); (42960, "ꟑ");
   (42966, "ꟗ"); (42968, "ꟙ"); (42997, "ꟶ"); (65313, "ａ"); (65314, "ｂ"); (65315, "ｃ"); (65316, "ｄ"); (65317, "ｅ");
   (65318, "ｆ"); (65319, "ｇ"); (65320, "ｈ"); (65321, "ｉ"); (65322, "ｊ"); (65323, "ｋ"); (65324, "ｌ"); (65325, "ｍ");
   (65326, "ｎ"); (65327, "ｏ"); (65328, "ｐ"); (65329, "ｑ"); (65330, "ｒ"); (65331, "ｓ"); (65332, "ｔ"); (65333, "ｕ");
   (65334, "ｖ"); (65335, "ｗ"); (65336, "ｘ"); (65337, "ｙ"); (65338, "ｚ"); (66560, "𐐨"); (66561, "𐐩"); (66562, "𐐪");
   (66563, "𐐫"); (66564, "𐐬"); (66565, "𐐭"); (66566, "𐐮"); (66567, "𐐯"); (66568, "𐐰"); (66569, "𐐱"); (66570, "𐐲");
   (66571, "𐐳"); (66572, "𐐴"); (66573, "𐐵"); (66574, "𐐶"); (66575, "𐐷"); (66576, "𐐸"); (66577, "𐐹"); (66578, "𐐺");
   (66579, "𐐻"); (66580, "𐐼"); (66581, "𐐽"); (66582, "𐐾"); (66583, "𐐿"); (66584, "𐑀"); (66585, "𐑁"); (66586, "𐑂");
   (66587, "𐑃"); (66588, "𐑄"); (66589, "𐑅"); (66590, "𐑆"); (66591, "𐑇"); (66592, "𐑈"); (66593, "𐑉"); (66594, "𐑊");
   (66595, "𐑋"); (66596, "𐑌"); (66597, "𐑍"); (66598, "𐑎"); (66599, "𐑏"); (66736, "𐓘"); (66737, "𐓙"); (66738, "𐓚");
   (66739, "𐓛"); (66740, "𐓜"); (66741, "𐓝"); (66742, "𐓞"); (66743, "𐓟"); (66744, "𐓠"); (66745, "𐓡"); (66746, "𐓢");
   (66747, "𐓣"); (66748, "𐓤"); (66749, "𐓥"); (66750, "𐓦"); (66751, "𐓧"); (66752, "𐓨"); (66753, "𐓩"); (66754, "𐓪");
   (66755, "𐓫"); (66756, "𐓬"); (66757, "𐓭"); (66758, "𐓮"); (66759, "𐓯"); (66760, "𐓰"); (66761, "𐓱"); (66762, "𐓲");
   (66763, "𐓳"); (66764, "𐓴"); (66765, "𐓵"); (66766, "𐓶"); (66767, "𐓷"); (66768, "𐓸"); (66769, "𐓹"); (66770, "𐓺");
   (66771, "𐓻"); (66928, "𐖗"); (66929, "𐖘"); (66930, "𐖙"); (66931, "𐖚"); (66932, "𐖛"); (66933, "𐖜"); (66934, "𐖝");
   (66935, "𐖞"); (66936, "𐖟"); (66937, "𐖠"); (66938, "𐖡"); (66940, "𐖣"); (66941, "𐖤"); (66942, "𐖥"); (66943, "𐖦");
   (66944, "𐖧"); (66945, "𐖨"); (66946, "𐖩"); (66947, "𐖪"); (66948, "𐖫"); (66949, "𐖬"); (66950, "𐖭"); (66951, "𐖮");
   (66952, "𐖯"); (66953, "𐖰"); (66954, "𐖱"); (66956, "𐖳"); (66957, "𐖴"); (66958, "𐖵"); (66959, "𐖶"); (66960, "𐖷");
   (66961, "𐖸"); (66962, "𐖹"); (66964, "𐖻"); (66965, "𐖼"); (68736, "𐳀"); (68737, "𐳁"); (68738, "𐳂"); (68739, "𐳃");
   (68740, "𐳄"); (68741, "𐳅"); (68742, "𐳆"); (68743, "𐳇"); (68744, "𐳈"); (68745, "𐳉"); (68746, "𐳊"); (68747, "𐳋");
   (68748, "𐳌"); (68749, "𐳍"); (68750, "𐳎"); (68751, "𐳏"); (68752, "𐳐"); (68753, "𐳑"); (68754, "𐳒"); (68755, "𐳓");
   (68756, "𐳔"); (68757, "𐳕"); (68758, "𐳖"); (68759, "𐳗"); (68760, "𐳘"); (68761, "𐳙"); (68762, "𐳚"); (68763, "𐳛");
   (68764, "𐳜"); (68765, "𐳝"); (68766, "𐳞"); (68767, "𐳟"); (68768, "𐳠"); (68769, "𐳡"); (68770, "𐳢"); (68771, "𐳣");
   (68772, "𐳤"); (68773, "𐳥"); (68774, "𐳦"); (68775, "𐳧"); (68776, "𐳨"); (68777, "𐳩"); (68778, "𐳪"); (68779, "𐳫");
   (68780, "𐳬"); (68781, "𐳭"); (68782, "𐳮"); (68783, "𐳯"); (68784, "𐳰"); (68785, "𐳱"); (68786, "𐳲"); (71840, "𑣀");
   (71841, "𑣁"); (71842, "𑣂"); (71843, "𑣃"); (71844, "𑣄"); (71845, "𑣅"); (71846, "𑣆"); (71847, "𑣇"); (71848, "𑣈");
   (71849, "𑣉"); (71850, "𑣊"); (71851, "𑣋"); (71852, "𑣌"); (71853, "𑣍"); (71854, "𑣎"); (71855, "𑣏"); (71856, "𑣐");
   (71857, "𑣑"); (71858, "𑣒"); (71859, "𑣓"); (71860, "𑣔"); (71861, "𑣕"); (71862, "𑣖"); (71863, "𑣗"); (71864, "𑣘");
   (71865, "𑣙"); (71866, "𑣚"); (71867, "𑣛"); (71868, "𑣜"); (71869, "𑣝"); (71870, "𑣞"); (71871, "𑣟"); (93760, "𖹠");
   (93761, "𖹡"); (93762, "𖹢"); (93763, "𖹣"); (93764, "𖹤"); (93765, "𖹥"); (93766, "𖹦"); (93767, "𖹧"); (93768, "𖹨");
   (93769, "𖹩"); (93770, "𖹪"); (93771, "𖹫"); (93772, "𖹬"); (93773, "𖹭"); (93774, "𖹮"); (93775, "𖹯"); (93776, "𖹰");
   (93777, "𖹱"); (93778, "𖹲"); (93779, "𖹳"); (93780, "𖹴"); (93781, "𖹵"); (93782, "𖹶"); (93783, "𖹷"); (93784, "𖹸");
   (93785, "𖹹"); (93786, "𖹺"); (93787, "𖹻"); (93788, "𖹼"); (93789, "𖹽"); (93790, "𖹾"); (93791, "𖹿"); (125184, "𞤢");
   (125185, "𞤣"); (125186, "𞤤"); (125187, "𞤥"); (125188, "𞤦"); (125189, "𞤧"); (125190, "𞤨"); (125191, "𞤩"); (125192, "𞤪");
   (125193, "𞤫"); (125194, "𞤬"); (125195, "𞤭"); (125196, "𞤮"); (125197, "𞤯"); (125198, "𞤰"); (125199, "𞤱"); (125200, "𞤲");
   (125201, "𞤳"); (125202, "𞤴"); (125203, "𞤵"); (125204, "𞤶"); (125205, "𞤷"); (125206, "𞤸"); (125207, "𞤹"); (125208, "𞤺");
   (125209, "𞤻"); (125210, "𞤼"); (125211, "𞤽"); (125212, "𞤾"); (125213, "𞤿"); (125214, "𞥀"); (125215, "𞥁"); (125216, "𞥂");
   (125217, "𞥃")].

(** The case-ignorable code points, as inclusive ranges. *)
Definition caseIgnorableRanges : list (N * N) :=
  [(39, 39); (46, 46); (58, 58); (94, 94); (96, 96); (168, 168);
   (173, 173); (175, 175); (180, 180); (183, 184); (688, 879); (884, 885);
   (890, 890); (900, 901); (903, 903); (1155, 1161); (1369, 1369); (1375, 1375);
   (1425, 1469); (1471, 1471); (1473, 1474); (1476, 1477); (1479, 1479); (1524, 1524);
   (1536, 1541); (1552, 1562); (1564, 1564); (1600, 1600); (1611, 1631); (1648, 1648);
   (1750, 1757); (1759, 1768); (1770, 1773); (1807, 1807); (1809, 1809); (1840, 1866);
   (1958, 1968); (2027, 2037); (2042, 2042); (2045, 2045); (2070, 2093); (2137, 2139);
   (2184, 2184); (2192, 2193); (2200, 2207); (2249, 2306); (2362, 2362); (2364, 2364);
   (2369, 2376); (2381, 2381); (2385, 2391); (2402, 2403); (2417, 2417); (2433, 2433);
   (2492, 2492); (2497, 2500); (2509, 2509); (2530, 2531); (2558, 2558); (2561, 2562);
   (2620, 2620); (2625, 2626); (2631, 2632); (2635, 2637); (2641, 2641); (2672, 2673);
   (2677, 2677); (2689, 2690); (2748, 2748); (2753, 2757); (2759, 2760); (2765, 2765);
   (2786, 2787); (2810, 2815); (2817, 2817); (2876, 2876); (2879, 2879); (2881, 2884);
   (2893, 2893); (2901, 2902); (2914, 2915); (2946, 2946); (3008, 3008); (3021, 3021);
   (3072, 3072); (3076, 3076); (3132, 3132); (3134, 3136); (3142, 3144); (3146, 3149);
   (3157, 3158); (3170, 3171); (3201, 3201); (3260, 3260); (3263, 3263); (3270, 3270);
   (3276, 3277); (3298, 3299); (3328, 3329); (3387, 3388); (3393, 3396); (3405, 3405);
   (3426, 3427); (3457, 3457); (3530, 3530); (3538, 3540); (3542, 3542); (3633, 3633);
   (3636, 3642); (3654, 3662); (3761, 3761); (3764, 3772); (3782, 3782); (3784, 3789);
   (3864, 3865); (3893, 3893); (3895, 3895); (3897, 3897); (3953, 3966); (3968, 3972);
   (3974, 3975); (3981, 3991); (3993, 4028); (4038, 4038); (4141, 4144); (4146, 4151);
   (4153, 4154); (4157, 4158); (4184, 4185); (4190, 4192); (4209, 4212); (4226, 4226);
   (4229, 4230); (4237, 4237); (4253, 4253); (4348, 4348); (4957, 4959); (5906, 5908);
   (5938, 5939); (5970, 5971); (6002, 6003); (6068, 6069); (6071, 6077); (6086, 6086);
   (6089, 6099); (6103, 6103); (6109, 6109); (6155, 6159); (6211, 6211); (6277, 6278);
   (6313, 6313); (6432, 6434); (6439, 6440); (6450, 6450); (6457, 6459); (6679, 6680);
   (6683, 6683); (6742, 6742); (6744, 6750); (6752, 6752); (6754, 6754); (6757, 6764);
   (6771, 6780); (6783, 6783); (6823, 6823); (6832, 6862); (6912, 6915); (6964, 6964);
   (6966, 6970); (6972, 6972); (6978, 6978); (7019, 7027); (7040, 7041); (7074, 7077);
   (7080, 7081); (7083, 7085); (7142, 7142); (7144, 7145); (7149, 7149); (7151, 7153);
   (7212, 7219); (7222, 7223); (7288, 7293); (7376, 7378); (7380, 7392); (7394, 7400);
   (7405, 7405); (7412, 7412); (7416, 7417); (7468, 7530); (7544, 7544); (7579, 7679);
   (8125, 8125); (8127, 8129); (8141, 8143); (8157, 8159); (8173, 8175); (8189, 8190);
   (8203, 8207); (8216, 8217); (8228, 8228); (8231, 8231); (8234, 8238); (8288, 8292);
   (8294, 8303); (8305, 8305); (8319, 8319); (8336, 8348); (8400, 8432); (11388, 11389);
   (11503, 11505); (11631, 11631); (11647, 11647); (11744, 11775); (11823, 11823); (12293, 12293);
   (12330, 12333); (12337, 12341); (12347, 12347); (12441, 12446); (12540, 12542); (40981, 40981);
   (42232, 42237); (42508, 42508); (42607, 42610); (42612, 42621); (42623, 42623); (42652, 42655);
   (42736, 42737); (42752, 42785); (42864, 42864); (42888, 42890); (42994, 42996); (43000, 43001);
   (43010, 43010); (43014, 43014); (43019, 43019); (43045, 43046); (43052, 43052); (43204, 43205);
   (43232, 43249); (43263, 43263); (43302, 43309); (43335, 43345); (43392, 43394); (43443, 43443);
   (43446, 43449); (43452, 43453); (43471, 43471); (43493, 43494); (43561, 43566); (43569, 43570);
   (43573, 43574); (43587, 43587); (43596, 43596); (43632, 43632); (43644, 43644); (43696, 43696);
   (43698, 43700); (43703, 43704); (43710, 43711); (43713, 43713); (43741, 43741); (43756, 43757);
   (43763, 43764); (43766, 43766); (43867, 43871); (43881, 43883); (44005, 44005); (44008, 44008);
   (44013, 44013); (64286, 64286); (64434, 64450); (65024, 65039); (65043, 65043); (65056, 65071);
   (65106, 65106); (65109, 65109); (65279, 65279); (65287, 65287); (65294, 65294); (65306, 65306);
   (65342, 65342); (65344, 65344); (65392, 65392); (65438, 65439); (65507, 65507); (65529, 65531);
   (66045, 66045); (66272, 66272); (66422, 66426); (67456, 67461); (67463, 67504); (67506, 67514);
   (68097, 68099); (68101, 68102); (68108, 68111); (68152, 68154); (68159, 68159); (68325, 68326);
   (68900, 68903); (69291, 69292); (69446, 69456); (69506, 69509); (69633, 69633); (69688, 69702);
   (69744, 69744); (69747, 69748); (69759, 69761); (69811, 69814); (69817, 69818); (69821, 69821);
   (69826, 69826); (69837, 69837); (69888, 69890); (69927, 69931); (69933, 69940); (70003, 70003);
   (70016, 70017); (70070, 70078); (70089, 70092); (70095, 70095); (70191, 70193); (70196, 70196);
   (70198, 70199); (70206, 70206); (70367, 70367); (70371, 70378); (70400, 70401); (70459, 70460);
   (70464, 70464); (70502, 70508); (70512, 70516); (70712, 70719); (70722, 70724); (70726, 70726);
   (70750, 70750); (70835, 70840); (70842, 70842); (70847, 70848); (70850, 70851); (71090, 71093);
   (71100, 71101); (71103, 71104); (71132, 71133); (71219, 71226); (71229, 71229); (71231, 71232);
   (71339, 71339); (71341, 71341); (71344, 71349); (71351, 71351); (71453, 71455); (71458, 71461);
   (71463, 71467); (71727, 71735); (71737, 71738); (71995, 71996); (71998, 71998); (72003, 72003);
   (72148, 72151); (72154, 72155); (72160, 72160); (72193, 72202); (72243, 72248); (72251, 72254);
   (72263, 72263); (72273, 72278); (72281, 72283); (72330, 72342); (72344, 72345); (72752, 72758);
   (72760, 72765); (72767, 72767); (72850, 72871); (72874, 72880); (72882, 72883); (72885, 72886);
   (73009, 73014); (73018, 73018); (73020, 73021); (73023, 73029); (73031, 73031); (73104, 73105);
   (73109, 73109); (73111, 73111); (73459, 73460); (78896, 78904); (92912, 92916); (92976, 92982);
   (92992, 92995); (94031, 94031); (94095, 94111); (94176, 94177); (94179, 94180); (110576, 110579);
   (110581, 110587); (110589, 110590); (113821, 113822); (113824, 113827); (118528, 118573); (118576, 118598);
   (119143, 119145); (119155, 119170); (119173, 119179); (119210, 119213); (119362, 119364); (121344, 121398);
   (121403, 121452); (121461, 121461); (121476, 121476); (121499, 121503); (121505, 121519); (122880, 122886);
   (122888, 122904); (122907, 122913); (122915, 122916); (122918, 122922); (123184, 123197); (123566, 123566);
   (123628, 123631); (125136, 125142); (125252, 125259); (127995, 127999); (917505, 917505); (917536, 917631);
   (917760, 917999)].

(** The cased code points that are not case-ignorable, as inclusive
    ranges. *)
Definition casedRanges : list (N * N) :=
  [(65, 90); (97, 122); (170, 170); (181, 181); (186, 186); (192, 214);
   (216, 246); (248, 442); (444, 447); (452, 659); (661, 687); (880, 883);
   (886, 887); (891, 893); (895, 895); (902, 902); (904, 906); (908, 908);
   (910, 929); (931, 1013); (1015, 1153); (1162, 1327); (1329, 1366); (1376, 1416);
   (4256, 4293); (4295, 4295); (4301, 4301); (4304, 4346); (4349, 4351); (5024, 5109);
   (5112, 5117); (7296, 7304); (7312, 7354); (7357, 7359); (7424, 7467); (7531, 7543);
   (7545, 7578); (7680, 7957); (7960, 7965); (7968, 8005); (8008, 8013); (8016, 8023);
   (8025, 8025); (8027, 8027); (8029, 8029); (8031, 8061); (8064, 8116); (8118, 8124);
   (8126, 8126); (8130, 8132); (8134, 8140); (8144, 8147); (8150, 8155); (8160, 8172);
   (8178, 8180); (8182, 8188); (8450, 8450); (8455, 8455); (8458, 8467); (8469, 8469);
   (8473, 8477); (8484, 8484); (8486, 8486); (8488, 8488); (8490, 8493); (8495, 8500);
   (8505, 8505); (8508, 8511); (8517, 8521); (8526, 8526); (8544, 8575); (8579, 8580);
   (9398, 9449); (11264, 11387); (11390, 11492); (11499, 11502); (11506, 11507); (11520, 11557);
   (11559, 11559); (11565, 11565); (42560, 42605); (42624, 42651); (42786, 42863); (42865, 42887);
   (42891, 42894); (42896, 42954); (42960, 42961); (42963, 42963); (42965, 42969); (42997, 42998);
   (43002, 43002); (43824, 43866); (43872, 43880); (43888, 43967); (64256, 64262); (64275, 64279);
   (65313, 65338); (65345, 65370); (66560, 66639); (66736, 66771); (66776, 66811); (66928, 66938);
   (66940, 66954); (66956, 66962); (66964, 66965); (66967, 66977); (66979, 66993); (66995, 67001);
   (67003, 67004); (68736, 68786); (68800, 68850); (71840, 71903); (93760, 93823); (119808, 119892);
   (119894, 119964); (119966, 119967); (119970, 119970); (119973, 119974); (119977, 119980); (119982, 119993);
   (119995, 119995); (119997, 120003); (120005, 120069); (120071, 120074); (120077, 120084); (120086, 120092);
   (120094, 120121); (120123, 120126); (120128, 120132); (120134, 120134); (120138, 120144); (120146, 120485);
   (120488, 120512); (120514, 120538); (120540, 120570); (120572, 120596); (120598, 120628); (120630, 120654);
   (120656, 120686); (120688, 120712); (120714, 120744); (120746, 120770); (120772, 120779); (122624, 122633);
   (122635, 122654); (125184, 125251); (127280, 127305); (127312, 127337); (127344, 127369)].

End Unicode.

(** ** JavaScript string primitives *)

Module Js.

(** Truthiness of a string: every string but the empty one. *)
Definition truthy (s : string) : bool :=
  match s with
  | EmptyString => false
  | String _ _ => true
  end.

(** [s.startsWith(p)] *)
Fixpoint startsWith (s p : string) {struct p} : bool :=
  match p with
  | EmptyString => true
  | String b p' =>
      match s with
      | EmptyString => false
      | String a s' => Ascii.eqb a b && startsWith s' p'
      end
  end.

(** [s.includes(q)]: [q] starts at some position of [s]. *)
Fixpoint includes (s q : string) : bool :=
  startsWith s q ||
  match s with
  | EmptyString => false
  | String _ s' => includes s' q
  end.

(** The string without its first [n] bytes. *)
Fixpoint drop (n : nat) (s : string) : string :=
  match n, s with
  | O, _ => s
  | S _, EmptyString => EmptyString
  | S k, String _ s' => drop k s'
  end.

(** The first [n] bytes of the string. *)
Fixpoint take (n : nat) (s : string) : string :=
  match n, s with
  | O, _ => EmptyString
  | S _, EmptyString => EmptyString
  | S k, String b s' => String b (take k s')
  end.

(** The strings of a list, one after the other. *)
Fixpoint join (l : list string) : string :=
  match l with
  | [] => EmptyString
  | c :: l' => c ++ join l'
  end.

(** *** Characters *)

(** Number of bytes of the UTF-8 character whose first byte is [b]. *)
Definition charLen (b : ascii) : nat :=
  let n := nat_of_ascii b in
  (if n <? 192 then 1 else if n <? 224 then 2 else if n <? 240 then 3 else 4)%nat.

(** The characters of a string, in order; [skip] counts the bytes of
    the current character that are still to be passed over. *)
Fixpoint charsFrom (skip : nat) (s : string) : list string :=
  match s with
  | EmptyString => []
  | String b s' =>
      match skip with
      | S k => charsFrom k s'
      | O => take (charLen b) s :: charsFrom (charLen b - 1) s'
      end
  end.

Definition chars (s : string) : list string := charsFrom 0 s.

(** [c] has all the bytes its first byte announces. *)
Definition isWhole (c : string) : bool :=
  match c with
  | EmptyString => false
  | String b _ => (length c =? charLen b)%nat
  end.

(** A continuation byte of UTF-8, 128..191. *)
Definition isContinuation (b : ascii) : bool :=
  let n := nat_of_ascii b in ((128 <=? n) && (n <=? 191))%nat.

Definition payload (b : ascii) (modulus : N) : N := (N_of_ascii b mod modulus)%N.

(** The code point of a character, [None] for bytes that are not the
    UTF-8 form of one. *)
Definition codePoint (c : string) : option N :=
  match c with
  | String a EmptyString =>
      if (N_of_ascii a <? 128)%N then Some (N_of_ascii a) else None
  | String a (String b EmptyString) =>
      let cp := (payload a 32 * 64 + payload b 64)%N in
      if (nat_of_ascii a <? 224)%nat && isContinuation b && (128 <=? cp)%N
      then Some cp else None
  | String a (String b (String c EmptyString)) =>
      let cp := (payload a 16 * 4096 + payload b 64 * 64 + payload c 64)%N in
      if isContinuation b && isContinuation c && (2048 <=? cp)%N
         && negb ((55296 <=? cp) && (cp <=? 57343))%N
      then Some cp else None
  | String a (String b (String c (String d EmptyString))) =>
      let cp := (payload a 8 * 262144 + payload b 64 * 4096
                 + payload c 64 * 64 + payload d 64)%N in
      if isContinuation b && isContinuation c && isContinuation d
         && (65536 <=? cp)%N && (cp <=? 1114111)%N
      then Some cp else None
  | _ => None
  end.

Definition bytes (l : list nat) : string :=
  fold_right (fun n s => String (ascii_of_nat n) s) EmptyString l.

(** *** White space *)

(** The characters [trim] removes: the white space and the line
    terminators of ECMAScript.  TAB, LF, VT, FF, CR, SP, then U+00A0,
    U+1680, U+2000..U+200A, U+2028, U+2029, U+202F, U+205F, U+3000 and
    U+FEFF. *)
Definition whiteSpaceChars : list string :=
  [bytes [9]; bytes [10]; bytes [11]; bytes [12]; bytes [13]; bytes [32];
   bytes [194; 160]; bytes [225; 154; 128];
   bytes [226; 128; 128]; bytes [226; 128; 129]; bytes [226; 128; 130];
   bytes [226; 128; 131]; bytes [226; 128; 132]; bytes [226; 128; 133];
   bytes [226; 128; 134]; bytes [226; 128; 135]; bytes [226; 128; 136];
   bytes [226; 128; 137]; bytes [226; 128; 138];
   bytes [226; 128; 168]; bytes [226; 128; 169]; bytes [226; 128; 175];
   bytes [226; 129; 159]; bytes [227; 128; 128]; bytes [239; 187; 191]].

Definition isWhiteSpace (c : string) : bool :=
  existsb (String.eqb c) whiteSpaceChars.

Fixpoint dropWhile {A : Type} (p : A -> bool) (l : list A) : list A :=
  match l with
  | [] => []
  | x :: l' => if p x then dropWhile p l' else l
  end.

(** A list without the elements at its end that satisfy [p]. *)
Definition dropWhileEnd {A : Type} (p : A -> bool) (l : list A) : list A :=
  rev (dropWhile p (rev l)).

Definition trimStart (s : string) : string :=
  join (dropWhile isWhiteSpace (chars s)).

Definition trimEnd (s : string) : string :=
  join (dropWhileEnd isWhiteSpace (chars s)).

(** [s.trim()] *)
Definition trim (s : string) : string :=
  join (dropWhileEnd isWhiteSpace (dropWhile isWhiteSpace (chars s))).

(** Every character of [s] is white space. *)
Definition allWhiteSpace (s : string) : bool :=
  forallb isWhiteSpace (chars s).

(** *** Lower case *)

Definition inRanges (cp : N) (ranges : list (N * N)) : bool :=
  existsb (fun r => (fst r <=? cp) && (cp <=? snd r))%N ranges.

Definition caseIgnorable (c : string) : bool :=
  match codePoint c with
  | Some cp => inRanges cp Unicode.caseIgnorableRanges
  | None => false
  end.

(** Cased, for a character that is not case-ignorable. *)
Definition cased (c : string) : bool :=
  match codePoint c with
  | Some cp => inRanges cp Unicode.casedRanges
  | None => false
  end.

(** The characters that follow are case-ignorable ones and then a cased
    letter. *)
Fixpoint beforeCased (rest : list string) : bool :=
  match rest with
  | [] => false
  | c :: rest' => if caseIgnorable c then beforeCased rest' else cased c
  end.

(** The lower-case form of the character [c]; [afterCased] says that a
    cased letter and then only case-ignorable characters precede it,
    [rest] are the characters that follow.  The two matter for the
    Greek capital sigma, U+03A3, alone: it becomes the final sigma when
    it ends a word (the condition [Final_Sigma] of Unicode). *)
Definition lowerOne (afterCased : bool) (c : string) (rest : list string) : string :=
  match codePoint c with
  | Some cp =>
      match find (fun e => (fst e =? cp)%N) Unicode.lowerTable with
      | Some e =>
          if (cp =? 931)%N
          then (if afterCased && negb (beforeCased rest) then "ς" else snd e)
          else snd e
      | None => c
      end
  | None => c
  end.

Fixpoint lowerChars (afterCased : bool) (l : list string) : list string :=
  match l with
  | [] => []
  | c :: rest =>
      lowerOne afterCased c rest
      :: lowerChars (if caseIgnorable c then afterCased else cased c) rest
  end.

(** [s.toLowerCase()] *)
Definition toLowerCase (s : string) : string :=
  join (lowerChars false (chars s)).

(** *** Regular-expression replacements used by the page stripper *)

(** Lower case of an ASCII letter; any other byte is left alone. *)
Definition lowerChar (c : ascii) : ascii :=
  let n := nat_of_ascii c in
  if ((65 <=? n) && (n <=? 90))%nat then ascii_of_nat (n + 32) else c.

(** Case-insensitive prefix test, as the [i] flag gives it for a pattern
    of ASCII letters and punctuation. *)
Fixpoint startsWithCI (s p : string) {struct p} : bool :=
  match p with
  | EmptyString => true
  | String b p' =>
      match s with
      | EmptyString => false
      | String a s' => Ascii.eqb (lowerChar a) (lowerChar b) && startsWithCI s' p'
      end
  end.

(** Number of characters of [s] before the first case-insensitive
    occurrence of [close]. *)
Fixpoint findCI (close s : string) : option nat :=
  if startsWithCI s close then Some 0
  else match s with
       | EmptyString => None
       | String _ s' => option_map S (findCI close s')
       end.

(** [s.replace(/OPEN[\s\S]*?CLOSE/gi, '')] for literal [OPEN] and
    [CLOSE]: scanning from the left, every [OPEN] that is followed by a
    [CLOSE] is removed together with everything up to and including the
    nearest such [CLOSE].  [skip] counts the characters of the current
    match that are still to be dropped. *)
Fixpoint removeBlocksFrom (opn close : string) (skip : nat) (s : string) : string :=
  match s with
  | EmptyString => EmptyString
  | String c s' =>
      match skip with
      | S k => removeBlocksFrom opn close k s'
      | O =>
          if startsWithCI s opn then
            match findCI close (drop (length opn) s) with
            | Some n => removeBlocksFrom opn close (length opn + n + length close - 1) s'
            | None => String c (removeBlocksFrom opn close 0 s')
            end
          else String c (removeBlocksFrom opn close 0 s')
      end
  end.

Definition removeBlocks (opn close s : string) : string :=
  removeBlocksFrom opn close 0 s.

(** Number of characters of [s] before its first [>]. *)
Fixpoint findGt (s : string) : option nat :=
  match s with
  | EmptyString => None
  | String c s' => if Ascii.eqb c ">" then Some 0 else option_map S (findGt s')
  end.

(** [s.replace(/<[^>]+>/g, ' ')]: a [<] followed by at least one
    character other than [>] and then a [>] becomes one space. *)
Fixpoint replaceTagsFrom (skip : nat) (s : string) : string :=
  match s with
  | EmptyString => EmptyString
  | String c s' =>
      match skip with
      | S k => replaceTagsFrom k s'
      | O =>
          if Ascii.eqb c "<" then
            match findGt s' with
            | Some (S n) => String " " (replaceTagsFrom (S n + 1) s')
            | _ => String c (replaceTagsFrom 0 s')
            end
          else String c (replaceTagsFrom 0 s')
      end
  end.

Definition replaceTags (s : string) : string := replaceTagsFrom 0 s.

(** *** What is left of a tag *)

(** A match of [/<[^>]+>/] starts at the head of [s]. *)
Definition tagAt (s : string) : bool :=
  match s with
  | EmptyString => false
  | String c s' =>
      Ascii.eqb c "<" &&
      match findGt s' with
      | Some (S _) => true
      | _ => false
      end
  end.

(** [/<[^>]+>/.test(s)] *)
Fixpoint hasTag (s : string) : bool :=
  tagAt s ||
  match s with
  | EmptyString => false
  | String _ s' => hasTag s'
  end.

(** [String(n)] for an integer [n]. *)
Definition numberToString (n : Z) : string :=
  NilZero.string_of_int (Z.to_int n).

End Js.

(** ** Data model *)

(** The declarations of [types.ts] ([Source] and [Notebook]), which the
    components import, are not among the sources; the three types below
    stand for them. *)

Module SourceType.
(** Modelled from the spec: the union [Source['type']] of [types.ts].
    The specification lists six source types; the tags are the string
    literals the components assign to and compare with [source.type]
    (pasted text carries the tag ['copiedText']). *)
Inductive t := copiedText | website | youtube | pdf | audio | image.
End SourceType.

(** The [metadata] bag: an object with string keys, here the list of
    its entries. *)
Inductive MetaValue :=
| MetaString (s : string)
| MetaNumber (n : Z).

Definition Metadata := list (string * MetaValue).

Module Source.
(** Modelled from the spec: the interface [Source] of [types.ts], with
    the fields [handleAddSource] fills in. *)
Record t := mk {
  id : string;
  type : SourceType.t;
  title : string;
  content : string;
  createdAt : Z;
  metadata : Metadata
}.

(** [{ ...source, title }] *)
Definition withTitle (s : t) (newTitle : string) : t :=
  mk (id s) (type s) newTitle (content s) (createdAt s) (metadata s).
End Source.

Module Notebook.
(** Modelled from the spec: the interface [Notebook] of [types.ts], with
    the fields [NotebookView] reads and writes. *)
Record t := mk {
  id : string;
  title : string;
  sources : list Source.t;
  updatedAt : Z
}.
End Notebook.

(** A browser [File]: [text] is what [file.text()] resolves to, [None]
    when the read is rejected. *)
Module File.
Record t := mk {
  name : string;
  type : string;
  size : Z;
  text : option string
}.
End File.

(** What the code reads from outside during one run. *)
Record World := {
  (** [fetch(url)] followed by [res.text()]; [None] when either rejects *)
  fetch : string -> option string;
  (** [fetch(url)], [res.json()] and its [title] field; [None] when any
      of them fails or the field is absent *)
  fetchJsonTitle : string -> option string;
  (** [crypto.randomUUID()] *)
  randomUUID : string;
  (** [Date.now()] *)
  now : Z;
  (** [new Date().toLocaleTimeString()] *)
  toLocaleTimeString : string
}.

(** [try { body } catch { handler }] around a body that either returns
    or throws. *)
Definition tryCatch {A : Type} (body : option A) (handler : A) : A :=
  match body with
  | Some a => a
  | None => handler
  end.

(** [a || b] on strings *)
Definition orElse (a b : string) : string := if Js.truthy a then a else b.

Definition newline : string := String (ascii_of_nat 10) EmptyString.

(** ** services/ai *)

Module Ai.

(** The three replacements applied to the page text. *)
Definition stripMarkup (text : string) : string :=
  Js.replaceTags
    (Js.removeBlocks "<style" "</style>"
       (Js.removeBlocks "<script" "</script>" text)).

Definition fetchWebsiteContent (w : World) (url : string) : string :=
  tryCatch
    (match fetch w url with
     | Some text =>
         let plain := stripMarkup text in
         Some (orElse (Js.trim plain) ("Retrieved content from " ++ url))
     | None => None
     end)
    ("Could not fetch content from " ++ url ++ ".").

(** The hyphen of [server‑side] in the stub is the source's U+2011. *)
Definition processFileWithGemini (file : File.t) (mimeType : string) : string :=
  tryCatch
    (if Js.startsWith mimeType "text/" then File.text file
     else Some ("Uploaded file " ++ File.name file ++ " of type " ++ mimeType
                ++ " has been received. Text extraction requires server‑side processing."))
    ("Could not process file " ++ File.name file ++ ".").

(** *** Requests to the backend *)

(** The body of a response, as [res.json()] and the test
    ['error' in data] see it: [Unreadable] when the body is not JSON or
    not an object (either way an error with that message is thrown),
    otherwise the object with the value of its [error] key, if it has
    one. *)
Inductive Body (T : Type) :=
| Unreadable (message : string)
| Object (error : option string) (data : T).

(** One call of [fetch]: rejected, or answered with a status. *)
Inductive Exchange (T : Type) :=
| NoResponse (message : string)
| Response (status : Z) (body : Body T).

Arguments Unreadable {T} message.
Arguments Object {T} error data.
Arguments NoResponse {T} message.
Arguments Response {T} status body.

(** The server: what it answers to a POST of a JSON object to a url. *)
Definition Http (T : Type) : Type := string -> Metadata -> Exchange T.

(** [res.ok]: the status is in the range 200..299. *)
Definition ok (status : Z) : bool := ((200 <=? status) && (status <=? 299))%Z.

(** [inl] is the message of the error thrown. *)
Definition postJson {T : Type} (http : Http T) (url : string) (body : Metadata) : string + T :=
  match http url body with
  | NoResponse message => inl message
  | Response status b =>
      if negb (ok status)
      then inl ("Request to " ++ url ++ " failed with status " ++ Js.numberToString status)
      else
        match b with
        | Unreadable message => inl message
        | Object (Some error) _ => inl error
        | Object None data => inr data
        end
  end.

Record Answer := {
  answerText : string;
  answerCitations : option (list string)
}.

Definition generateAnswer (http : Http Answer) (notebookId prompt : string) : string + Answer :=
  postJson http "/api/ai/answer"
    [("notebookId", MetaString notebookId); ("prompt", MetaString prompt)].

(** The object of a quiz response, [Q] being the type of a question:
    [quizQuestions] is the value under the key [questions], [None] when
    the object has no such key. *)
Record QuizBody (Q : Type) := {
  quizQuestions : option (list Q)
}.

Arguments quizQuestions {Q} _.

(** [inr None] is the value [undefined], returned when the response has
    no [questions]. *)
Definition generateQuiz {Q : Type} (http : Http (QuizBody Q)) (notebookId : string)
    (count : Z) : string + option (list Q) :=
  match postJson http "/api/ai/quiz"
          [("notebookId", MetaString notebookId); ("count", MetaNumber count)] with
  | inl message => inl message
  | inr result => inr (quizQuestions result)
  end.

End Ai.

(** ** components/NotebookView *)

Module NotebookView.

(** Each operation returns the notebook handed to [onUpdate]; [now] is
    the value of [Date.now()] at the call. *)
Definition addSource (notebook : Notebook.t) (source : Source.t) (now : Z) : Notebook.t :=
  Notebook.mk (Notebook.id notebook) (Notebook.title notebook)
    (Notebook.sources notebook ++ [source]) now.

Definition deleteSource (notebook : Notebook.t) (id : string) (now : Z) : Notebook.t :=
  Notebook.mk (Notebook.id notebook) (Notebook.title notebook)
    (filter (fun s => negb (String.eqb (Source.id s) id)) (Notebook.sources notebook)) now.

Definition editSource (notebook : Notebook.t) (updatedSource : Source.t) (now : Z) : Notebook.t :=
  Notebook.mk (Notebook.id notebook) (Notebook.title notebook)
    (map (fun s => if String.eqb (Source.id s) (Source.id updatedSource)
                   then updatedSource else s)
       (Notebook.sources notebook)) now.

(** [saveTitle]: the notebook after the title editor closes with
    [editedTitle] in it. *)
Definition saveTitle (notebook : Notebook.t) (editedTitle : string) (now : Z) : Notebook.t :=
  let title := Js.trim editedTitle in
  if Js.truthy title && negb (String.eqb title (Notebook.title notebook))
  then Notebook.mk (Notebook.id notebook) title (Notebook.sources notebook) now
  else notebook.

End NotebookView.

(** ** components/SourcesTab *)

Module Modal.
Inductive t := text | website | youtube | file.
End Modal.

Module FileType.
Inductive t := pdf | audio | image.

(** A file kind is one of the source types. *)
Definition toSourceType (ft : t) : SourceType.t :=
  match ft with
  | pdf => SourceType.pdf
  | audio => SourceType.audio
  | image => SourceType.image
  end.
End FileType.

Module SourcesTab.

(** The component state read by [handleAddSource]. *)
Record Form := {
  activeModal : option Modal.t;
  fileType : option FileType.t;
  inputValue : string;
  titleValue : string;
  selectedFile : option File.t
}.

(** The local variables of [handleAddSource] after the dispatch on the
    modal. *)
Record Draft := {
  draftContent : string;
  finalTitle : string;
  draftType : SourceType.t;
  draftMetadata : Metadata
}.

(** The locals as initialised, before any branch runs. *)
Definition initialDraft (f : Form) : Draft :=
  {| draftContent := ""; finalTitle := titleValue f;
     draftType := SourceType.copiedText; draftMetadata := [] |}.

(** The [if]/[else if] chain; [inl] is the message of a thrown [Error]. *)
Definition dispatch (w : World) (f : Form) : string + Draft :=
  match activeModal f with
  | Some Modal.text =>
      inr {| draftContent := inputValue f;
             finalTitle := orElse (titleValue f) ("Pasted Text " ++ toLocaleTimeString w);
             draftType := SourceType.copiedText;
             draftMetadata := [] |}
  | Some Modal.website =>
      if negb (Js.startsWith (inputValue f) "http") then inl "Invalid URL"
      else
        inr {| draftContent := Ai.fetchWebsiteContent w (inputValue f);
               finalTitle := orElse (titleValue f) (inputValue f);
               draftType := SourceType.website;
               draftMetadata := [("originalUrl", MetaString (inputValue f))] |}
  | Some Modal.youtube =>
      if negb (Js.includes (inputValue f) "youtube.com")
         && negb (Js.includes (inputValue f) "youtu.be")
      then inl "Invalid YouTube URL"
      else
        let oembedUrl := "https://noembed.com/embed?url=" ++ inputValue f in
        let looked :=
          tryCatch
            (match fetchJsonTitle w oembedUrl with
             | Some t => Some (if Js.truthy t then t else titleValue f)
             | None => None
             end)
            (titleValue f) in
        let title := orElse looked "YouTube Video" in
        inr {| draftContent :=
                 "[YouTube Video Source]" ++ newline ++ "URL: " ++ inputValue f
                 ++ newline ++ "Title: " ++ title ++ newline ++ newline
                 ++ "(Note: Video transcript ingestion requires backend API. Treat this source as context for the video's existence.)";
               finalTitle := title;
               draftType := SourceType.youtube;
               draftMetadata := [("originalUrl", MetaString (inputValue f))] |}
  | Some Modal.file =>
      match selectedFile f, fileType f with
      | Some file, Some ft =>
          inr {| draftContent := Ai.processFileWithGemini file (File.type file);
                 finalTitle := orElse (titleValue f) (File.name file);
                 draftType := FileType.toSourceType ft;
                 draftMetadata := [("filename", MetaString (File.name file));
                                   ("size", MetaNumber (File.size file))] |}
      | _, _ => inr (initialDraft f)
      end
  | None => inr (initialDraft f)
  end.

(** The body of the [try] block: [inl] is the message of the thrown
    [Error], [inr] the source passed to [onAddSource]. *)
Definition ingest (w : World) (f : Form) : string + Source.t :=
  match dispatch w f with
  | inl message => inl message
  | inr d =>
      if negb (Js.truthy (draftContent d)) then inl "No content could be extracted."
      else inr (Source.mk (randomUUID w) (draftType d) (finalTitle d)
                  (draftContent d) (now w) (draftMetadata d))
  end.

(** What one click on "Add Source" does: either [onAddSource] is called
    with a new source, or the error banner is set. *)
Inductive Outcome :=
| Added (newSource : Source.t)
| Failed (error : string).

Definition handleAddSource (w : World) (f : Form) : Outcome :=
  match ingest w f with
  | inr newSource => Added newSource
  | inl message => Failed (orElse message "Failed to add source.")
  end.

(** The list shown under the search bar. *)
Definition matchesQuery (searchQuery : string) (s : Source.t) : bool :=
  if negb (Js.truthy (Js.trim searchQuery)) then true
  else
    let q := Js.toLowerCase searchQuery in
    Js.includes (Js.toLowerCase (Source.title s)) q
    || Js.includes (Js.toLowerCase (Source.content s)) q.

Definition displayedSources (sources : list Source.t) (searchQuery : string) : list Source.t :=
  filter (matchesQuery searchQuery) sources.

(** The edit button of a source card: [answer] is what [prompt] returned
    ([None] for a cancelled dialog); the result is the source handed to
    [onEditSource], if the callback is invoked at all. *)
Definition editClick (source : Source.t) (answer : option string) : option Source.t :=
  match answer with
  | None => None
  | Some newTitle =>
      if Js.truthy newTitle && Js.truthy (Js.trim newTitle)
         && negb (String.eqb newTitle (Source.title source))
      then Some (Source.withTitle source (Js.trim newTitle))
      else None
  end.

(** The [disabled] attribute of the "Add Source" button. *)
Definition addDisabled (isProcessing : bool) (f : Form) : bool :=
  isProcessing
  || (negb (Js.truthy (inputValue f))
      && negb (match selectedFile f with Some _ => true | None => false end)).

(** [handleFileSelect]: the form after the file input reports [files]. *)
Definition handleFileSelect (f : Form) (files : list File.t) : Form :=
  match files with
  | file :: _ =>
      {| activeModal := activeModal f; fileType := fileType f;
         inputValue := inputValue f;
         titleValue := orElse (titleValue f) (File.name file);
         selectedFile := Some file |}
  | [] => f
  end.

(** [resetModal] *)
Definition resetModal : Form :=
  {| activeModal := None; fileType := None; inputValue := "";
     titleValue := ""; selectedFile := None |}.

(** [metadata?.key] *)
Fixpoint metadataGet (key : string) (m : Metadata) : option MetaValue :=
  match m with
  | [] => None
  | (k, v) :: m' => if String.eqb k key then Some v else metadataGet key m'
  end.

(** Truthiness of a metadata value that may be missing. *)
Definition metaTruthy (v : option MetaValue) : bool :=
  match v with
  | Some (MetaString s) => Js.truthy s
  | Some (MetaNumber n) => negb (n =? 0)%Z
  | None => false
  end.

(** The second line of a source card, next to the type badge. *)
Definition cardSubtitle (source : Source.t) : MetaValue :=
  match Source.type source with
  | SourceType.copiedText => MetaString "Pasted Content"
  | _ =>
      match metadataGet "originalUrl" (Source.metadata source) with
      | Some v =>
          if metaTruthy (Some v) then v
          else match metadataGet "filename" (Source.metadata source) with
               | Some v' => if metaTruthy (Some v') then v' else MetaString "File Upload"
               | None => MetaString "File Upload"
               end
      | None =>
          match metadataGet "filename" (Source.metadata source) with
          | Some v' => if metaTruthy (Some v') then v' else MetaString "File Upload"
          | None => MetaString "File Upload"
          end
      end
  end.

End SourcesTab.

(** ** components/ChatTab *)

Module ChatTab.

Inductive Role := user | model.

(** The chat message of [types.ts], with the fields [sendMessage] fills
    in. *)
Record ChatMessage := {
  id : string;
  role : Role;
  text : string;
  citations : option (list string)
}.

Record State := {
  messages : list ChatMessage;
  input : string;
  loading : bool;
  learningGuide : bool
}.

(** What one run of [sendMessage] reads from outside: the clock when the
    question is stored and when the answer arrives, and the server. *)
Record Env := {
  askedAt : Z;
  answeredAt : Z;
  http : Ai.Http Ai.Answer
}.

(** What one run leaves behind: the component state, the text of the
    alert box if one was shown, and the prompt of the request if one was
    made. *)
Record Outcome := {
  state : State;
  alerted : option string;
  prompted : option string
}.

Definition guidePrefix : string :=
  "You are a patient learning guide. Break down your explanations into simple steps, ask clarifying questions when appropriate, and encourage active engagement. ".

Definition sendMessage (e : Env) (notebook : Notebook.t) (st : State) : Outcome :=
  let prompt := Js.trim (input st) in
  if negb (Js.truthy prompt) || loading st
  then {| state := st; alerted := None; prompted := None |}
  else
    let userMsg :=
      {| id := Js.numberToString (askedAt e); role := user;
         text := prompt; citations := None |} in
    let finalPrompt := if learningGuide st then guidePrefix ++ prompt else prompt in
    match Ai.generateAnswer (http e) (Notebook.id notebook) finalPrompt with
    | inr result =>
        let modelMsg :=
          {| id := Js.numberToString (answeredAt e + 1); role := model;
             text := Ai.answerText result;
             citations := Ai.answerCitations result |} in
        {| state := {| messages := (messages st ++ [userMsg]) ++ [modelMsg];
                       input := ""; loading := false;
                       learningGuide := learningGuide st |};
           alerted := None;
           prompted := Some finalPrompt |}
    | inl message =>
        {| state := {| messages := messages st ++ [userMsg];
                       input := ""; loading := false;
                       learningGuide := learningGuide st |};
           alerted := Some (orElse message "Failed to generate answer");
           prompted := Some finalPrompt |}
    end.

End ChatTab.

(** ** components/QuizTab *)

Module QuizTab.

(** The quiz question of [types.ts], with the fields the component
    reads; the options are the texts shown beside the radio buttons. *)
Record QuizQuestion := {
  id : string;
  prompt : string;
  options : option (list string);
  correctIndex : option Z;
  answer : option string
}.

(** A recorded answer: the index of the option chosen (a number) or the
    text typed (a string). *)
Inductive Answer :=
| Chosen (idx : Z)
| Written (text : string).

(** [Record<string, number | string>], the latest entry of a key first. *)
Definition Answers := list (string * Answer).

Fixpoint answerOf (questionId : string) (a : Answers) : option Answer :=
  match a with
  | [] => None
  | (k, v) :: a' => if String.eqb k questionId then Some v else answerOf questionId a'
  end.

(** [questions] is [None] when the state holds [undefined], which is
    what a response without [questions] leaves there. *)
Record State := {
  questions : option (list QuizQuestion);
  currentIndex : Z;
  answers : Answers;
  showResults : bool;
  loading : bool
}.

Definition initial : State :=
  {| questions := Some []; currentIndex := 0; answers := [];
     showResults := false; loading := false |}.

Definition recordAnswer (st : State) (questionId : string) (value : Answer) : State :=
  {| questions := questions st; currentIndex := currentIndex st;
     answers := (questionId, value) :: answers st;
     showResults := showResults st; loading := loading st |}.

(** Reading [questions.length] of [undefined] throws, which leaves the
    state as it is. *)
Definition nextQuestion (st : State) : State :=
  match questions st with
  | None => st
  | Some qs =>
      if (currentIndex st <? Z.of_nat (List.length qs) - 1)%Z
      then {| questions := questions st; currentIndex := (currentIndex st + 1)%Z;
              answers := answers st; showResults := showResults st;
              loading := loading st |}
      else {| questions := questions st; currentIndex := currentIndex st;
              answers := answers st; showResults := true; loading := loading st |}
  end.

(** [handleGenerate]: the state afterwards and the alert, if any. *)
Definition handleGenerate (http : Ai.Http (Ai.QuizBody QuizQuestion))
    (notebook : Notebook.t) (st : State) : State * option string :=
  match Ai.generateQuiz http (Notebook.id notebook) 5 with
  | inr qs =>
      ({| questions := qs; currentIndex := 0; answers := [];
          showResults := false; loading := false |}, None)
  | inl message =>
      ({| questions := questions st; currentIndex := currentIndex st;
          answers := answers st; showResults := showResults st;
          loading := false |},
       Some (orElse message "Failed to generate quiz"))
  end.

(** [array[i]]: [None] stands for [undefined]. *)
Definition at_ {A : Type} (l : list A) (i : Z) : option A :=
  if (i <? 0)%Z then None else nth_error l (Z.to_nat i).

(** What the component renders: [RenderError] when rendering throws,
    which reading [questions.length] of [undefined] does. *)
Inductive Screen :=
| RenderError
| NoQuiz
| Results
| Question (q : option QuizQuestion).

Definition screen (st : State) : Screen :=
  match questions st with
  | None => RenderError
  | Some [] => NoQuiz
  | Some (q :: qs) =>
      if showResults st then Results
      else Question (at_ (q :: qs) (currentIndex st))
  end.

(** The [correct] value of the results view. *)
Definition correctOf (q : QuizQuestion) : option string :=
  match options q, correctIndex q with
  | Some opts, Some i => at_ opts i
  | _, _ => answer q
  end.

(** [userAns === correct] *)
Definition strictEqual (userAns : option Answer) (correct : option string) : bool :=
  match userAns, correct with
  | None, None => true
  | Some (Written t), Some c => String.eqb t c
  | _, _ => false
  end.

Definition isCorrect (st : State) (q : QuizQuestion) : bool :=
  strictEqual (answerOf (id q) (answers st)) (correctOf q).

(** The states the quiz can be in: the initial one and those that
    answering, moving on and (re)generating lead to, as long as the
    component renders. *)
Inductive Reachable : State -> Prop :=
| Reachable_initial : Reachable initial
| Reachable_record st questionId value :
    Reachable st -> screen st <> RenderError ->
    Reachable (recordAnswer st questionId value)
| Reachable_next st :
    Reachable st -> screen st <> RenderError ->
    Reachable (nextQuestion st)
| Reachable_generate http notebook st :
    Reachable st -> screen st <> RenderError ->
    Reachable (fst (handleGenerate http notebook st)).

End QuizTab.

(** ** The two components wired together *)

(** The notebook after a click on the edit button of [source], with
    [NotebookView.editSource] as the [onEditSource] callback. *)
Definition editSourceTitle (notebook : Notebook.t) (source : Source.t)
    (answer : option string) (now : Z) : Notebook.t :=
  match SourcesTab.editClick source answer with
  | Some updated => NotebookView.editSource notebook updated now
  | None => notebook
  end.

(** The notebook after a click on "Add Source", with
    [NotebookView.addSource] as the [onAddSource] callback; [later] is
    the clock when the callback runs. *)
Definition addFromForm (w : World) (f : SourcesTab.Form) (notebook : Notebook.t)
    (later : Z) : Notebook.t :=
  match SourcesTab.handleAddSource w f with
  | SourcesTab.Added newSource => NotebookView.addSource notebook newSource later
  | SourcesTab.Failed _ => notebook
  end.

(** ** Vocabulary of the specification *)

(** The error classes the specification names.  The code signals an
    error by the message of a thrown [Error] only; [errorClass] assigns
    each message [handleAddSource] can show its class.  No message of
    the code stands for [MissingInput] or [FetchFailed]. *)
Inductive IngestionError := InvalidInput | MissingInput | FetchFailed | EmptyContent.

Definition errorClass (message : string) : option IngestionError :=
  if String.eqb message "Invalid URL" then Some InvalidInput
  else if String.eqb message "Invalid YouTube URL" then Some InvalidInput
  else if String.eqb message "No content could be extracted." then Some EmptyContent
  else None.

(** The click fails with an error of class [cls]: no source is handed
    to [onAddSource]. *)
Definition failsWith (w : World) (f : SourcesTab.Form) (cls : IngestionError) : Prop :=
  exists message,
    SourcesTab.handleAddSource w f = SourcesTab.Failed message
    /\ errorClass message = Some cls.



(** [Selects P l l']: [l'] is [l] with exactly the elements satisfying
    [P] kept, in their original order. *)
Inductive Selects {A : Type} (P : A -> Prop) : list A -> list A -> Prop :=
| Selects_nil : Selects P [] []
| Selects_keep x l l' : P x -> Selects P l l' -> Selects P (x :: l) (x :: l')
| Selects_drop x l l' : ~ P x -> Selects P l l' -> Selects P (x :: l) l'.

Definition hasContent (s : Source.t) : Prop := 0 < length (Source.content s).

(** One user action on a notebook: adding through the form, deleting a
    source, retitling one of the notebook's sources through its card,
    renaming the notebook. *)
Inductive Step : Notebook.t -> Notebook.t -> Prop :=
| Step_add w f later nb :
    Step nb (addFromForm w f nb later)
| Step_delete id now nb :
    Step nb (NotebookView.deleteSource nb id now)
| Step_edit source answer now nb :
    In source (Notebook.sources nb) ->
    Step nb (editSourceTitle nb source answer now)
| Step_rename editedTitle now nb :
    Step nb (NotebookView.saveTitle nb editedTitle now).

Inductive Steps : Notebook.t -> Notebook.t -> Prop :=
| Steps_refl nb : Steps nb nb
| Steps_then nb1 nb2 nb3 : Steps nb1 nb2 -> Step nb2 nb3 -> Steps nb1 nb3.

(** ** Sample data *)

Module Sample.

(** A world without network: every request is rejected. *)
Definition offline : World :=
  {| fetch := fun _ => None;
     fetchJsonTitle := fun _ => None;
     randomUUID := "0b5f3f0e-7c1d-4b7e-9a43-2f6f0c1d8e21";
     now := 1700000000000;
     toLocaleTimeString := "10:15:00 AM" |}.

(** A world serving one page, made of markup only. *)
Definition markupOnly : World :=
  {| fetch := fun _ => Some "<html><script>var a = 1;</script> <p></p></html>";
     fetchJsonTitle := fun _ => None;
     randomUUID := "0b5f3f0e-7c1d-4b7e-9a43-2f6f0c1d8e21";
     now := 1700000000000;
     toLocaleTimeString := "10:15:00 AM" |}.

Definition form (m : Modal.t) (ft : option FileType.t) (input : string)
    (file : option File.t) : SourcesTab.Form :=
  {| SourcesTab.activeModal := Some m; SourcesTab.fileType := ft;
     SourcesTab.inputValue := input; SourcesTab.titleValue := "";
     SourcesTab.selectedFile := file |}.

Definition hello : File.t := File.mk "hello.txt" "text/plain" 5 (Some "hello").
Definition picture : File.t := File.mk "cat.png" "image/png" 2048 None.

Definition cats : Source.t :=
  Source.mk "s1" SourceType.copiedText "Cats" "x" 1 [].
Definition dogs : Source.t :=
  Source.mk "s2" SourceType.copiedText "Dogs" "cats are great" 2 [].
Definition foo : Source.t :=
  Source.mk "s3" SourceType.copiedText "Foo" "some text" 3 [].

Definition notebook : Notebook.t :=
  Notebook.mk "n1" "Animals" [cats; dogs; foo] 1000.


End Sample.

(** * Properties *)

(** ** Strings *)

Section StringFacts.

Lemma truthy_false_iff (s : string) : Js.truthy s = false <-> s = "".
Proof. destruct s; simpl; split; congruence. Qed.

Lemma truthy_true_iff (s : string) : Js.truthy s = true <-> s <> "".
Proof. destruct s; simpl; split; congruence. Qed.

Lemma truthy_length (s : string) : Js.truthy s = true <-> 0 < length s.
Proof. destruct s; simpl; split; intros; try congruence; lia. Qed.

Lemma truthy_append_l (a b : string) :
  Js.truthy a = true -> Js.truthy (a ++ b) = true.
Proof. destruct a; simpl; congruence. Qed.

Lemma orElse_truthy (a b : string) :
  Js.truthy b = true -> Js.truthy (orElse a b) = true.
Proof. unfold orElse. destruct (Js.truthy a) eqn:E; auto. Qed.

Lemma orElse_empty (b : string) : orElse "" b = b.
Proof. reflexivity. Qed.

Lemma append_assoc (a b c : string) : (a ++ b) ++ c = a ++ (b ++ c).
Proof. induction a as [|x a IH]; simpl; [reflexivity | now rewrite IH]. Qed.

Lemma append_empty_r (a : string) : a ++ "" = a.
Proof. induction a as [|x a IH]; simpl; [reflexivity | now rewrite IH]. Qed.

(** [startsWith] decides "is a prefix of". *)
Lemma startsWith_iff (s p : string) :
  Js.startsWith s p = true <-> exists r, s = p ++ r.
Proof.
  revert s. induction p as [|b p IH]; intros s; simpl.
  - split; [intros _; now exists s | reflexivity].
  - destruct s as [|a s].
    + split; [discriminate | intros [r Hr]; discriminate].
    + rewrite andb_true_iff, Ascii.eqb_eq, IH. split.
      * intros [-> [r ->]]. now exists r.
      * intros [r Hr]. injection Hr as -> ->. split; [reflexivity | now exists r].
Qed.

(** [includes] decides "occurs as a contiguous substring of". *)
Lemma includes_iff (s q : string) :
  Js.includes s q = true <-> exists a b, s = a ++ q ++ b.
Proof.
  induction s as [|c s IH]; simpl.
  - rewrite orb_false_r, startsWith_iff. split.
    + intros [r Hr]. now exists "", r.
    + intros [a [b Hab]]. destruct a; simpl in Hab; [now exists b | discriminate].
  - rewrite orb_true_iff, (startsWith_iff (String c s) q), IH. split.
    + intros [[r Hr] | [a [b Hab]]].
      * now exists "", r.
      * exists (String c a), b. simpl. now rewrite Hab.
    + intros [a [b Hab]]. destruct a as [|x a]; simpl in Hab.
      * left. now exists b.
      * right. injection Hab as _ ->. now exists a, b.
Qed.

Lemma includes_middle (a q b : string) : Js.includes (a ++ q ++ b) q = true.
Proof. apply includes_iff. now exists a, b. Qed.

Lemma includes_end (a q : string) : Js.includes (a ++ q) q = true.
Proof. apply includes_iff. exists a, "". now rewrite append_empty_r. Qed.

End StringFacts.

(** ** services/ai *)

Section AiFacts.

Variable w : World.

(** The content fetcher always hands back a non-empty string. *)
Lemma fetchWebsiteContent_truthy (url : string) :
  Js.truthy (Ai.fetchWebsiteContent w url) = true.
Proof.
  unfold Ai.fetchWebsiteContent, tryCatch.
  destruct (fetch w url) as [text|]; [|reflexivity].
  now apply orElse_truthy.
Qed.

(** When the page has text left after stripping, that text is returned. *)
Lemma fetchWebsiteContent_text (url text : string) :
  fetch w url = Some text ->
  Js.trim (Ai.stripMarkup text) <> "" ->
  Ai.fetchWebsiteContent w url = Js.trim (Ai.stripMarkup text).
Proof.
  intros Hf Hne. unfold Ai.fetchWebsiteContent, tryCatch, orElse. rewrite Hf.
  apply truthy_true_iff in Hne. now rewrite Hne.
Qed.

End AiFacts.

(** C6: [fetchWebsiteContent] is a total function into strings (its
    [try]/[catch] turns every rejection into a value); when the request
    or the reading of its body fails, and when nothing is left of the
    page after stripping and trimming, the result is one of the two
    placeholders, and the placeholder contains the url. *)
Theorem fetchWebsiteContent_placeholder (w : World) (url : string) :
  fetch w url = None
  \/ (exists text, fetch w url = Some text /\ Js.trim (Ai.stripMarkup text) = "") ->
  (Ai.fetchWebsiteContent w url = "Could not fetch content from " ++ url ++ "."
   \/ Ai.fetchWebsiteContent w url = "Retrieved content from " ++ url)
  /\ Js.includes (Ai.fetchWebsiteContent w url) url = true.
Proof.
  intros [Hfail | [text [Hf Hempty]]];
    unfold Ai.fetchWebsiteContent, tryCatch.
  - rewrite Hfail. split; [now left | apply includes_middle].
  - rewrite Hf. cbv zeta. rewrite Hempty, orElse_empty.
    split; [now right | apply includes_end].
Qed.

Lemma fetchWebsiteContent_placeholder_offline :
  Ai.fetchWebsiteContent Sample.offline "http://nonexistent.invalid/"
  = "Could not fetch content from http://nonexistent.invalid/."
  /\ Js.includes (Ai.fetchWebsiteContent Sample.offline "http://nonexistent.invalid/")
       "http://nonexistent.invalid/" = true.
Proof.
  destruct (fetchWebsiteContent_placeholder Sample.offline "http://nonexistent.invalid/")
    as [_ Hin].
  - left. reflexivity.
  - split; [reflexivity | exact Hin].
Defined.

Example fetchWebsiteContent_markup_only :
  Ai.fetchWebsiteContent Sample.markupOnly "http://example.com/"
  = "Retrieved content from http://example.com/".
Proof. reflexivity. Qed.

(** C7: for a MIME type starting with [text/] the result is the text the
    file decodes to, unchanged; for any other MIME type it is the stub
    sentence, which contains the file's name and the MIME type.  The
    function is total: a rejected read is caught and becomes a sentence
    naming the file. *)
Theorem processFileWithGemini_cases (file : File.t) (mimeType : string) :
  (Js.startsWith mimeType "text/" = true ->
   (forall decoded, File.text file = Some decoded ->
      Ai.processFileWithGemini file mimeType = decoded)
   /\ (File.text file = None ->
       Ai.processFileWithGemini file mimeType
       = "Could not process file " ++ File.name file ++ "."))
  /\ (Js.startsWith mimeType "text/" = false ->
      Js.includes (Ai.processFileWithGemini file mimeType) (File.name file) = true
      /\ Js.includes (Ai.processFileWithGemini file mimeType) mimeType = true).
Proof.
  unfold Ai.processFileWithGemini, tryCatch. split; intros Hmime; rewrite Hmime.
  - split.
    + intros decoded Hd. now rewrite Hd.
    + intros Hd. now rewrite Hd.
  - split.
    + apply includes_middle.
    + apply includes_iff.
      exists ("Uploaded file " ++ File.name file ++ " of type "). eexists.
      now rewrite !append_assoc.
Qed.

Lemma processFileWithGemini_hello_and_picture :
  Ai.processFileWithGemini Sample.hello "text/plain" = "hello"
  /\ Js.includes (Ai.processFileWithGemini Sample.picture "image/png") "cat.png" = true
  /\ Js.includes (Ai.processFileWithGemini Sample.picture "image/png") "image/png" = true.
Proof.
  split.
  - destruct (processFileWithGemini_cases Sample.hello "text/plain") as [Htext _].
    destruct (Htext eq_refl) as [Hdecoded _]. apply Hdecoded. reflexivity.
  - destruct (processFileWithGemini_cases Sample.picture "image/png") as [_ Hstub].
    apply Hstub. reflexivity.
Defined.

(** ** components/SourcesTab: adding a source *)

Section IngestFacts.

Import SourcesTab.

Variable w : World.
Variable f : Form.

(** A source is only ever built from a draft with non-empty content. *)
Lemma ingest_inr (s : Source.t) :
  ingest w f = inr s ->
  exists d,
    dispatch w f = inr d
    /\ Js.truthy (draftContent d) = true
    /\ s = Source.mk (randomUUID w) (draftType d) (finalTitle d)
             (draftContent d) (now w) (draftMetadata d).
Proof.
  unfold ingest. destruct (dispatch w f) as [message|d]; [discriminate|].
  destruct (Js.truthy (draftContent d)) eqn:Ht; simpl; [|discriminate].
  intros H. injection H as <-. now exists d.
Qed.

Lemma ingest_empty (d : Draft) :
  dispatch w f = inr d -> draftContent d = "" ->
  ingest w f = inl "No content could be extracted.".
Proof. unfold ingest. intros -> ->. reflexivity. Qed.

Lemma ingest_nonempty (d : Draft) :
  dispatch w f = inr d -> draftContent d <> "" ->
  ingest w f = inr (Source.mk (randomUUID w) (draftType d) (finalTitle d)
                      (draftContent d) (now w) (draftMetadata d)).
Proof.
  unfold ingest. intros -> Hne. apply truthy_true_iff in Hne. now rewrite Hne.
Qed.

Lemma handleAddSource_Added (s : Source.t) :
  handleAddSource w f = Added s <-> ingest w f = inr s.
Proof.
  unfold handleAddSource. destruct (ingest w f); split; congruence.
Qed.

Lemma handleAddSource_Failed (message : string) :
  ingest w f = inl message -> message <> "" ->
  handleAddSource w f = Failed message.
Proof.
  unfold handleAddSource, orElse. intros -> Hne.
  apply truthy_true_iff in Hne. now rewrite Hne.
Qed.

(** A failed click leaves the notebook as it was. *)
Lemma addFromForm_Failed (message : string) (nb : Notebook.t) (later : Z) :
  handleAddSource w f = Failed message -> addFromForm w f nb later = nb.
Proof. unfold addFromForm. now intros ->. Qed.

Lemma dispatch_text :
  activeModal f = Some Modal.text ->
  dispatch w f =
    inr {| draftContent := inputValue f;
           finalTitle := orElse (titleValue f) ("Pasted Text " ++ toLocaleTimeString w);
           draftType := SourceType.copiedText;
           draftMetadata := [] |}.
Proof. unfold dispatch. now intros ->. Qed.

Lemma dispatch_file_missing :
  activeModal f = Some Modal.file -> selectedFile f = None ->
  dispatch w f = inr (initialDraft f).
Proof. unfold dispatch. now intros -> ->. Qed.

(** Pasted text that is not empty is accepted as it stands. *)
Lemma handleAddSource_text :
  activeModal f = Some Modal.text -> inputValue f <> "" ->
  handleAddSource w f =
    Added (Source.mk (randomUUID w) SourceType.copiedText
             (orElse (titleValue f) ("Pasted Text " ++ toLocaleTimeString w))
             (inputValue f) (now w) []).
Proof.
  intros Hm Hne. apply handleAddSource_Added.
  now rewrite (ingest_nonempty _ (dispatch_text Hm) Hne).
Qed.

End IngestFacts.

(** C5: a website request whose input does not start with [http] fails
    with the [Invalid URL] error, a YouTube request whose input contains
    neither [youtube.com] nor [youtu.be] fails with the
    [Invalid YouTube URL] error; both are of class [InvalidInput], no
    source is handed on and the notebook stays as it was. *)
Theorem invalid_reference_rejected (w : World) (f : SourcesTab.Form) :
  (SourcesTab.activeModal f = Some Modal.website
   /\ Js.startsWith (SourcesTab.inputValue f) "http" = false)
  \/ (SourcesTab.activeModal f = Some Modal.youtube
      /\ Js.includes (SourcesTab.inputValue f) "youtube.com" = false
      /\ Js.includes (SourcesTab.inputValue f) "youtu.be" = false) ->
  failsWith w f InvalidInput
  /\ (forall s, SourcesTab.handleAddSource w f <> SourcesTab.Added s)
  /\ (forall nb later, addFromForm w f nb later = nb).
Proof.
  intros H.
  assert (Hfail : exists message,
             SourcesTab.handleAddSource w f = SourcesTab.Failed message
             /\ errorClass message = Some InvalidInput).
  { unfold SourcesTab.handleAddSource, SourcesTab.ingest, SourcesTab.dispatch.
    destruct H as [[-> Hhttp] | [-> [Hcom Hbe]]].
    - rewrite Hhttp. simpl. now exists "Invalid URL".
    - rewrite Hcom, Hbe. simpl. now exists "Invalid YouTube URL". }
  destruct Hfail as [message [Hm Hc]]. split; [|split].
  - now exists message.
  - intros s. rewrite Hm. discriminate.
  - intros nb later. now apply addFromForm_Failed with message.
Qed.

Lemma invalid_reference_rejected_ftp :
  SourcesTab.handleAddSource Sample.offline
    (Sample.form Modal.website None "ftp://example.com/a.txt" None)
  = SourcesTab.Failed "Invalid URL"
  /\ failsWith Sample.offline
       (Sample.form Modal.youtube None "https://vimeo.com/1" None) InvalidInput.
Proof.
  split; [reflexivity|].
  apply (invalid_reference_rejected Sample.offline
           (Sample.form Modal.youtube None "https://vimeo.com/1" None)).
  right. repeat split; reflexivity.
Defined.

(** C2, as the code has it: a file request with no file selected fails,
    no source is handed on and the notebook stays as it was; the error
    is the one of the final empty-content guard,
    [No content could be extracted.], of class [EmptyContent]. *)
Theorem missing_file_rejected (w : World) (f : SourcesTab.Form) :
  SourcesTab.activeModal f = Some Modal.file ->
  SourcesTab.selectedFile f = None ->
  SourcesTab.handleAddSource w f = SourcesTab.Failed "No content could be extracted."
  /\ failsWith w f EmptyContent
  /\ (forall nb later, addFromForm w f nb later = nb).
Proof.
  intros Hm Hfile.
  assert (Hfail : SourcesTab.handleAddSource w f
                  = SourcesTab.Failed "No content could be extracted.").
  { apply handleAddSource_Failed; [|discriminate].
    now apply ingest_empty with (SourcesTab.initialDraft f);
      [apply dispatch_file_missing|]. }
  split; [exact Hfail | split].
  - now exists "No content could be extracted.".
  - intros nb later. now apply addFromForm_Failed with "No content could be extracted.".
Qed.

Lemma missing_file_rejected_pdf :
  failsWith Sample.offline (Sample.form Modal.file (Some FileType.pdf) "" None) EmptyContent.
Proof.
  apply (missing_file_rejected Sample.offline
           (Sample.form Modal.file (Some FileType.pdf) "" None)); reflexivity.
Defined.

(** C2, as stated, does not hold: for a PDF request without a file the
    error shown is not of class [MissingInput]. *)
Lemma missing_file_not_MissingInput :
  ~ (forall w f ft,
        SourcesTab.activeModal f = Some Modal.file ->
        SourcesTab.fileType f = Some ft ->
        SourcesTab.selectedFile f = None ->
        failsWith w f MissingInput).
Proof.
  intros H.
  destruct (H Sample.offline (Sample.form Modal.file (Some FileType.pdf) "" None)
              FileType.pdf eq_refl eq_refl eq_refl) as [message [Hm Hc]].
  vm_compute in Hm. injection Hm as <-. vm_compute in Hc. discriminate.
Qed.

(** C9: the final guard tests for the empty string only.  Pasted text
    that is not empty but consists of white space alone is accepted, and
    the content of the new source is that very text; in general the
    final content error is raised exactly when the content is the empty
    string. *)
Theorem whitespace_only_text_accepted (w : World) (f : SourcesTab.Form) :
  SourcesTab.activeModal f = Some Modal.text ->
  SourcesTab.inputValue f <> "" ->
  Js.trim (SourcesTab.inputValue f) = "" ->
  (exists s, SourcesTab.handleAddSource w f = SourcesTab.Added s
             /\ Source.content s = SourcesTab.inputValue f)
  /\ (forall w' f' d, SourcesTab.dispatch w' f' = inr d ->
        (SourcesTab.ingest w' f' = inl "No content could be extracted."
         <-> SourcesTab.draftContent d = "")).
Proof.
  intros Hm Hne _. split.
  - eexists. split; [now apply handleAddSource_text | reflexivity].
  - intros w' f' d Hd. split.
    + intros Herr. destruct (SourcesTab.draftContent d) eqn:Hc; [reflexivity|].
      rewrite (ingest_nonempty _ _ _ Hd) in Herr; [discriminate | now rewrite Hc].
    + now apply ingest_empty.
Qed.

Lemma whitespace_only_text_accepted_blanks :
  exists s,
    SourcesTab.handleAddSource Sample.offline (Sample.form Modal.text None "   " None)
    = SourcesTab.Added s
    /\ Source.content s = "   ".
Proof.
  apply (whitespace_only_text_accepted Sample.offline
           (Sample.form Modal.text None "   " None)).
  - reflexivity.
  - discriminate.
  - reflexivity.
Defined.

(** C4: the type of every source produced by [handleAddSource] is one of
    the six tags, and it is the one of the branch taken: ['copiedText']
    (the tag of pasted text) for the text modal, ['website'],
    ['youtube'], or the file kind chosen for the file modal.  Pasted
    text that is not empty does yield a source, of type ['copiedText']. *)
Theorem source_type_of_branch (w : World) (f : SourcesTab.Form) :
  (forall s, SourcesTab.handleAddSource w f = SourcesTab.Added s ->
     In (Source.type s)
        [SourceType.copiedText; SourceType.website; SourceType.youtube;
         SourceType.pdf; SourceType.audio; SourceType.image]
     /\ match SourcesTab.activeModal f with
        | Some Modal.text => Source.type s = SourceType.copiedText
        | Some Modal.website => Source.type s = SourceType.website
        | Some Modal.youtube => Source.type s = SourceType.youtube
        | Some Modal.file =>
            exists ft, SourcesTab.fileType f = Some ft
                       /\ Source.type s = FileType.toSourceType ft
        | None => False
        end)
  /\ (SourcesTab.activeModal f = Some Modal.text ->
      SourcesTab.inputValue f <> "" ->
      exists s, SourcesTab.handleAddSource w f = SourcesTab.Added s
                /\ Source.type s = SourceType.copiedText
                /\ Source.content s = SourcesTab.inputValue f).
Proof.
  split.
  - intros s Hs. split.
    + destruct (Source.type s); simpl; tauto.
    + apply handleAddSource_Added, ingest_inr in Hs.
      destruct Hs as [d [Hd [Ht ->]]]. simpl.
      unfold SourcesTab.dispatch in Hd.
      destruct (SourcesTab.activeModal f) as [[| | |]|].
      * injection Hd as <-. reflexivity.
      * destruct (negb _); [discriminate|]. injection Hd as <-. reflexivity.
      * destruct (_ && _); [discriminate|]. injection Hd as <-. reflexivity.
      * destruct (SourcesTab.selectedFile f) as [file|],
                 (SourcesTab.fileType f) as [ft|];
          injection Hd as <-; try discriminate.
        now exists ft.
      * injection Hd as <-. discriminate.
  - intros Hm Hne. eexists. split; [now apply handleAddSource_text|].
    split; reflexivity.
Qed.

Lemma source_type_of_branch_samples :
  (exists s,
     SourcesTab.handleAddSource Sample.offline
       (Sample.form Modal.text None "some notes" None) = SourcesTab.Added s
     /\ Source.type s = SourceType.copiedText
     /\ Source.content s = "some notes")
  /\ (forall s,
        SourcesTab.handleAddSource Sample.offline
          (Sample.form Modal.file (Some FileType.image) "" (Some Sample.picture))
        = SourcesTab.Added s ->
        Source.type s = SourceType.image).
Proof.
  split.
  - apply (source_type_of_branch Sample.offline
             (Sample.form Modal.text None "some notes" None));
      [reflexivity | discriminate].
  - intros s Hs.
    destruct (source_type_of_branch Sample.offline
                (Sample.form Modal.file (Some FileType.image) "" (Some Sample.picture)))
      as [Hall _].
    destruct (Hall s Hs) as [_ [ft [Hft ->]]].
    injection Hft as <-. reflexivity.
Defined.

(** ** The content invariant of a notebook *)

Section ContentInvariant.

Lemma added_hasContent (w : World) (f : SourcesTab.Form) (s : Source.t) :
  SourcesTab.handleAddSource w f = SourcesTab.Added s -> hasContent s.
Proof.
  intros Hs. apply handleAddSource_Added, ingest_inr in Hs.
  destruct Hs as [d [_ [Ht ->]]]. now apply truthy_length.
Qed.

Lemma Forall_filter_keep {A : Type} (P : A -> Prop) (keep : A -> bool) (l : list A) :
  Forall P l -> Forall P (filter keep l).
Proof.
  induction 1 as [|x l Hx Hl IH]; simpl; [constructor|].
  destruct (keep x); [now constructor | exact IH].
Qed.

Lemma editClick_content (source updated : Source.t) (answer : option string) :
  SourcesTab.editClick source answer = Some updated ->
  Source.content updated = Source.content source
  /\ Source.id updated = Source.id source.
Proof.
  unfold SourcesTab.editClick. destruct answer as [newTitle|]; [|discriminate].
  destruct (_ && _); [|discriminate].
  intros H. injection H as <-. now split.
Qed.

Lemma Step_hasContent (nb nb' : Notebook.t) :
  Step nb nb' ->
  Forall hasContent (Notebook.sources nb) ->
  Forall hasContent (Notebook.sources nb').
Proof.
  intros [w f later nb0 | id now nb0 | source answer now nb0 Hin | editedTitle now nb0] Hall.
  - unfold addFromForm.
    destruct (SourcesTab.handleAddSource w f) as [s|message] eqn:Hs; [|exact Hall].
    simpl. apply Forall_app. split; [exact Hall|].
    constructor; [now apply added_hasContent with w f | constructor].
  - simpl. now apply Forall_filter_keep.
  - unfold editSourceTitle.
    destruct (SourcesTab.editClick source answer) as [updated|] eqn:Hu; [|exact Hall].
    apply editClick_content in Hu. destruct Hu as [Hc _].
    simpl. apply Forall_map. rewrite Forall_forall in Hall |- *.
    intros s Hs. destruct (String.eqb _ _); [|now apply Hall].
    unfold hasContent. rewrite Hc. now apply Hall.
  - unfold NotebookView.saveTitle. now destruct (_ && _).
Qed.

End ContentInvariant.

(** C1: whatever the kind of request, when the dispatch leaves the empty
    string as content the click fails with the message of the final
    guard, of class [EmptyContent], no source is handed on and the
    notebook stays as it was; every source that is handed on has content
    of positive length; and so every notebook reached by user actions
    from one whose sources all have content has only sources with
    content. *)
Theorem no_source_without_content :
  (forall w f d,
     SourcesTab.dispatch w f = inr d ->
     SourcesTab.draftContent d = "" ->
     SourcesTab.handleAddSource w f = SourcesTab.Failed "No content could be extracted."
     /\ failsWith w f EmptyContent
     /\ (forall s, SourcesTab.handleAddSource w f <> SourcesTab.Added s)
     /\ (forall nb later, addFromForm w f nb later = nb))
  /\ (forall w f s,
        SourcesTab.handleAddSource w f = SourcesTab.Added s ->
        0 < length (Source.content s))
  /\ (forall nb nb',
        Steps nb nb' ->
        Forall hasContent (Notebook.sources nb) ->
        Forall hasContent (Notebook.sources nb')).
Proof.
  split; [|split].
  - intros w f d Hd Hc.
    assert (Hfail : SourcesTab.handleAddSource w f
                    = SourcesTab.Failed "No content could be extracted.").
    { apply handleAddSource_Failed; [|discriminate]. now apply ingest_empty with d. }
    split; [exact Hfail | split; [|split]].
    + now exists "No content could be extracted.".
    + intros s. rewrite Hfail. discriminate.
    + intros nb later. now apply addFromForm_Failed with "No content could be extracted.".
  - intros w f s Hs. now apply added_hasContent with w f.
  - intros nb nb' Hsteps. induction Hsteps as [nb | nb1 nb2 nb3 _ IH Hstep]; intros Hall.
    + exact Hall.
    + apply Step_hasContent with nb2; [exact Hstep | now apply IH].
Qed.

(** An empty text file, an empty paste and a missing file all stop at
    the same guard. *)
Lemma no_source_without_content_samples :
  SourcesTab.handleAddSource Sample.offline
    (Sample.form Modal.file (Some FileType.pdf) ""
       (Some (File.mk "empty.txt" "text/plain" 0 (Some ""))))
  = SourcesTab.Failed "No content could be extracted."
  /\ Forall hasContent
       (Notebook.sources
          (addFromForm Sample.offline
             (Sample.form Modal.website None "https://example.com/" None)
             Sample.notebook 2000)).
Proof.
  destruct no_source_without_content as [Hempty [_ Hinv]]. split.
  - eapply Hempty; reflexivity.
  - apply Hinv with Sample.notebook.
    + eapply Steps_then; [apply Steps_refl | apply Step_add].
    + repeat constructor.
Defined.

(** ** Selecting from a list *)

Section SelectsFacts.

Context {A : Type}.
Variable P : A -> Prop.

(** [filter] with a test that decides [P] selects by [P]. *)
Lemma Selects_filter (keep : A -> bool) (l : list A) :
  (forall x, In x l -> (keep x = true <-> P x)) ->
  Selects P l (filter keep l).
Proof.
  induction l as [|x l IH]; intros Hdec; simpl; [constructor|].
  assert (Hl : Selects P l (filter keep l)).
  { apply IH. intros y Hy. apply Hdec. now right. }
  destruct (keep x) eqn:Hk.
  - apply Selects_keep; [|exact Hl]. apply Hdec; [now left | exact Hk].
  - apply Selects_drop; [|exact Hl]. intros Hp.
    apply Hdec in Hp; [congruence | now left].
Qed.

(** The selection is determined by the list and the property. *)
Lemma Selects_unique (l l1 l2 : list A) :
  Selects P l l1 -> Selects P l l2 -> l1 = l2.
Proof.
  intros H1. revert l2.
  induction H1 as [|x l l1 Hx _ IH|x l l1 Hx _ IH]; intros l2 H2;
    inversion H2; subst; try contradiction.
  - reflexivity.
  - f_equal. now apply IH.
  - now apply IH.
Qed.

Lemma Selects_In (l l' : list A) (x : A) :
  Selects P l l' -> (In x l' <-> In x l /\ P x).
Proof.
  induction 1 as [|y l l' Hy _ IH|y l l' Hy _ IH]; simpl.
  - tauto.
  - rewrite IH. split.
    + intros [-> | [Hin Hp]]; [split; [now left | exact Hy] | split; [now right | exact Hp]].
    + intros [[-> | Hin] Hp]; [now left | right; now split].
  - rewrite IH. split.
    + intros [Hin Hp]. split; [now right | exact Hp].
    + intros [[-> | Hin] Hp]; [contradiction | now split].
Qed.

(** Nothing is dropped when every element passes the test. *)
Lemma filter_all (keep : A -> bool) (l : list A) :
  (forall x, In x l -> keep x = true) -> filter keep l = l.
Proof.
  induction l as [|x l IH]; intros Hall; simpl; [reflexivity|].
  rewrite (Hall x (or_introl eq_refl)). f_equal. apply IH.
  intros y Hy. apply Hall. now right.
Qed.

End SelectsFacts.

(** ** components/SourcesTab: the search bar *)

Section FilterFacts.



End FilterFacts.




Example toLowerCase_final_sigma :
  Js.toLowerCase "ΟΔΟΣ" = "οδος" /\ Js.toLowerCase "Σ" = "σ"
  /\ Js.includes "ΟΔΟΣ" "Σ" = true.
Proof. vm_compute. repeat split. Qed.

(** ** components/NotebookView *)

(** C10: [deleteSource] always stamps the notebook with the current
    time.  When no source has the given id, the list of sources is the
    same, element for element; in every case the sources kept are
    exactly those with another id, unchanged and in their original
    order. *)
Theorem deleteSource_spec (notebook : Notebook.t) (id : string) (now : Z) :
  Notebook.updatedAt (NotebookView.deleteSource notebook id now) = now
  /\ ((forall s, In s (Notebook.sources notebook) -> Source.id s <> id) ->
      Notebook.sources (NotebookView.deleteSource notebook id now)
      = Notebook.sources notebook)
  /\ Selects (fun s => Source.id s <> id)
       (Notebook.sources notebook)
       (Notebook.sources (NotebookView.deleteSource notebook id now)).
Proof.
  simpl. split; [reflexivity | split].
  - intros Hnone. apply filter_all. intros s Hs.
    apply negb_true_iff, String.eqb_neq. now apply Hnone.
  - apply Selects_filter. intros s _.
    now rewrite negb_true_iff, String.eqb_neq.
Qed.

Lemma deleteSource_spec_unknown_id :
  Notebook.sources (NotebookView.deleteSource Sample.notebook "nope" 2000)
  = Notebook.sources Sample.notebook
  /\ Notebook.updatedAt (NotebookView.deleteSource Sample.notebook "nope" 2000) = 2000%Z.
Proof.
  destruct (deleteSource_spec Sample.notebook "nope" 2000) as [Hat [Hsame _]].
  split; [|exact Hat].
  apply Hsame. intros s [<- | [<- | [<- | []]]]; discriminate.
Defined.

Example deleteSource_known_id :
  Notebook.sources (NotebookView.deleteSource Sample.notebook "s2" 2000)
  = [Sample.cats; Sample.foo].
Proof. reflexivity. Qed.

(** ** Retitling a source *)

Section EditFacts.

Variable notebook : Notebook.t.
Variable source : Source.t.
Variable now : Z.

(** A cancelled dialog, an empty answer and an answer of white space
    only leave the notebook untouched. *)
Lemma editSourceTitle_blank (answer : option string) :
  answer = None \/ (exists newTitle, answer = Some newTitle /\ Js.trim newTitle = "") ->
  editSourceTitle notebook source answer now = notebook.
Proof.
  unfold editSourceTitle, SourcesTab.editClick.
  intros [-> | [newTitle [-> Hblank]]]; [reflexivity|].
  rewrite Hblank. simpl. now rewrite andb_false_r.
Qed.

(** So does an answer that is, character for character, the current
    title. *)
Lemma editSourceTitle_same :
  editSourceTitle notebook source (Some (Source.title source)) now = notebook.
Proof.
  unfold editSourceTitle, SourcesTab.editClick.
  now rewrite String.eqb_refl, andb_false_r.
Qed.

(** The notebook title editor trims before it compares. *)
Lemma saveTitle_same_after_trim (editedTitle : string) :
  Js.trim editedTitle = Notebook.title notebook ->
  NotebookView.saveTitle notebook editedTitle now = notebook.
Proof.
  unfold NotebookView.saveTitle. intros ->.
  now rewrite String.eqb_refl, andb_false_r.
Qed.

End EditFacts.

(** C3, at the input where the code departs from it: the source titled
    [Foo] is retitled with the answer [ Foo], which trims to the current
    title.  The answer is compared before it is trimmed, so the edit
    goes through: every source keeps its title, and yet the notebook is
    stamped with the new time. *)
Theorem editSourceTitle_padded_answer :
  Js.trim " Foo" = Source.title Sample.foo
  /\ In Sample.foo (Notebook.sources Sample.notebook)
  /\ Notebook.sources (editSourceTitle Sample.notebook Sample.foo (Some " Foo") 2000)
     = Notebook.sources Sample.notebook
  /\ Notebook.updatedAt (editSourceTitle Sample.notebook Sample.foo (Some " Foo") 2000)
     = 2000%Z
  /\ Notebook.updatedAt Sample.notebook = 1000%Z
  /\ editSourceTitle Sample.notebook Sample.foo (Some " Foo") 2000 <> Sample.notebook.
Proof.
  repeat split; try reflexivity.
  - simpl. tauto.
  - discriminate.
Qed.

(** ** Worked examples *)

Example trim_both_ends : Js.trim "  a b  " = "a b".
Proof. reflexivity. Qed.

Example toLowerCase_letters : Js.toLowerCase "Cats AND Dogs" = "cats and dogs".
Proof. reflexivity. Qed.

Example removeBlocks_script :
  Js.removeBlocks "<script" "</script>" "a<SCRIPT x>var y</Script>b<script>c"
  = "ab<script>c".
Proof. reflexivity. Qed.

Example replaceTags_page :
  Js.replaceTags "<p>Hi <b>there</b></p> <> a<b" = " Hi  there   <> a<b".
Proof. reflexivity. Qed.

Example stripMarkup_page :
  Js.trim (Ai.stripMarkup "<html><style>p {}</style><p>Hello</p><script>x()</script></html>")
  = "Hello".
Proof. reflexivity. Qed.

Example youtube_stub_title :
  exists s,
    SourcesTab.handleAddSource Sample.offline
      (Sample.form Modal.youtube None "https://youtu.be/abc" None) = SourcesTab.Added s
    /\ Source.title s = "YouTube Video"
    /\ Source.type s = SourceType.youtube.
Proof. eexists. repeat split. Qed.

(** * Further properties *)

(** ** Adding a source, branch by branch *)

Section BranchFacts.

Import SourcesTab.

Variable w : World.
Variable f : Form.

Lemma startsWith_nonempty (s p : string) :
  Js.startsWith s p = true -> p <> "" -> s <> "".
Proof. destruct p; [congruence|]. destruct s; simpl; congruence. Qed.

Lemma includes_nonempty (s q : string) :
  Js.includes s q = true -> q <> "" -> s <> "".
Proof. destruct q; [congruence|]. destruct s; simpl; congruence. Qed.

(** The title a YouTube source ends up with. *)
Lemma handleAddSource_youtube :
  activeModal f = Some Modal.youtube ->
  Js.includes (inputValue f) "youtube.com" = true
  \/ Js.includes (inputValue f) "youtu.be" = true ->
  exists title,
    title = orElse
              (match fetchJsonTitle w ("https://noembed.com/embed?url=" ++ inputValue f) with
               | Some t => if Js.truthy t then t else titleValue f
               | None => titleValue f
               end) "YouTube Video"
    /\ handleAddSource w f =
       Added (Source.mk (randomUUID w) SourceType.youtube title
                ("[YouTube Video Source]" ++ newline ++ "URL: " ++ inputValue f
                 ++ newline ++ "Title: " ++ title ++ newline ++ newline
                 ++ "(Note: Video transcript ingestion requires backend API. Treat this source as context for the video's existence.)")
                (now w) [("originalUrl", MetaString (inputValue f))]).
Proof.
  intros Hm Hmark. eexists. split; [reflexivity|].
  unfold handleAddSource, ingest, dispatch. rewrite Hm.
  assert (Hg : negb (Js.includes (inputValue f) "youtube.com")
               && negb (Js.includes (inputValue f) "youtu.be") = false).
  { destruct Hmark as [-> | ->]; [reflexivity | apply andb_false_r]. }
  rewrite Hg. cbv zeta.
  unfold tryCatch.
  destruct (fetchJsonTitle w _) as [t|]; reflexivity.
Qed.

Lemma handleAddSource_file (file : File.t) (ft : FileType.t) :
  activeModal f = Some Modal.file ->
  selectedFile f = Some file ->
  fileType f = Some ft ->
  ingest w f =
    if Js.truthy (Ai.processFileWithGemini file (File.type file))
    then inr (Source.mk (randomUUID w) (FileType.toSourceType ft)
                (orElse (titleValue f) (File.name file))
                (Ai.processFileWithGemini file (File.type file)) (now w)
                [("filename", MetaString (File.name file));
                 ("size", MetaNumber (File.size file))])
    else inl "No content could be extracted.".
Proof.
  intros Hm Hfile Hft. unfold ingest, dispatch. rewrite Hm, Hfile, Hft. simpl.
  now destruct (Js.truthy _).
Qed.

End BranchFacts.

(** X1: a website request whose input starts with [http] always adds a
    source, whatever the network does: its type is ['website'], its
    content is what [fetchWebsiteContent] returned (never empty), its
    title is the title typed or else the url, and its metadata holds the
    url. *)
Theorem website_request_always_added (w : World) (f : SourcesTab.Form) :
  SourcesTab.activeModal f = Some Modal.website ->
  Js.startsWith (SourcesTab.inputValue f) "http" = true ->
  SourcesTab.handleAddSource w f =
    SourcesTab.Added
      (Source.mk (randomUUID w) SourceType.website
         (orElse (SourcesTab.titleValue f) (SourcesTab.inputValue f))
         (Ai.fetchWebsiteContent w (SourcesTab.inputValue f)) (now w)
         [("originalUrl", MetaString (SourcesTab.inputValue f))])
  /\ Ai.fetchWebsiteContent w (SourcesTab.inputValue f) <> "".
Proof.
  intros Hm Hhttp.
  unfold SourcesTab.handleAddSource, SourcesTab.ingest, SourcesTab.dispatch.
  rewrite Hm, Hhttp. simpl. rewrite fetchWebsiteContent_truthy. simpl.
  split; [reflexivity|]. apply truthy_true_iff, fetchWebsiteContent_truthy.
Qed.

Lemma website_request_always_added_offline :
  exists s,
    SourcesTab.handleAddSource Sample.offline
      (Sample.form Modal.website None "https://example.com/" None) = SourcesTab.Added s
    /\ Source.content s = "Could not fetch content from https://example.com/."
    /\ Source.title s = "https://example.com/".
Proof.
  destruct (website_request_always_added Sample.offline
              (Sample.form Modal.website None "https://example.com/" None))
    as [Hadd _]; [reflexivity | reflexivity|].
  eexists. split; [exact Hadd|]. split; reflexivity.
Defined.

(** X2: a YouTube request whose input contains [youtube.com] or
    [youtu.be] always adds a source of type ['youtube'], with or without
    an answer from the title lookup; the content contains the url and
    the title of the source, and the metadata holds the url. *)
Theorem youtube_request_always_added (w : World) (f : SourcesTab.Form) :
  SourcesTab.activeModal f = Some Modal.youtube ->
  Js.includes (SourcesTab.inputValue f) "youtube.com" = true
  \/ Js.includes (SourcesTab.inputValue f) "youtu.be" = true ->
  exists s,
    SourcesTab.handleAddSource w f = SourcesTab.Added s
    /\ Source.type s = SourceType.youtube
    /\ Js.includes (Source.content s) (SourcesTab.inputValue f) = true
    /\ Js.includes (Source.content s) (Source.title s) = true
    /\ Source.metadata s = [("originalUrl", MetaString (SourcesTab.inputValue f))].
Proof.
  intros Hm Hmark.
  destruct (handleAddSource_youtube w f Hm Hmark) as [title [_ Hadd]].
  eexists. split; [exact Hadd|].
  cbn [Source.type Source.content Source.title Source.metadata]. repeat split.
  - apply includes_iff.
    exists ("[YouTube Video Source]" ++ newline ++ "URL: "). eexists.
    now rewrite !append_assoc.
  - apply includes_iff.
    exists ("[YouTube Video Source]" ++ newline ++ "URL: " ++ SourcesTab.inputValue f
            ++ newline ++ "Title: "). eexists.
    now rewrite !append_assoc.
Qed.

Lemma youtube_request_always_added_offline :
  exists s,
    SourcesTab.handleAddSource Sample.offline
      (Sample.form Modal.youtube None "https://youtu.be/abc" None) = SourcesTab.Added s
    /\ Source.type s = SourceType.youtube
    /\ Js.includes (Source.content s) "https://youtu.be/abc" = true.
Proof.
  destruct (youtube_request_always_added Sample.offline
              (Sample.form Modal.youtube None "https://youtu.be/abc" None))
    as [s [Hadd [Hty [Hurl _]]]]; [reflexivity | right; reflexivity|].
  exists s. now repeat split.
Defined.

(** X3: the title of a YouTube source.  A non-empty title found by the
    lookup wins, also over a title the user typed; without one (lookup
    failed, no title, empty title) the typed title is used, and
    ['YouTube Video'] when nothing was typed.  The title is never
    empty. *)
Theorem youtube_title_precedence (w : World) (f : SourcesTab.Form) :
  SourcesTab.activeModal f = Some Modal.youtube ->
  Js.includes (SourcesTab.inputValue f) "youtube.com" = true
  \/ Js.includes (SourcesTab.inputValue f) "youtu.be" = true ->
  exists s,
    SourcesTab.handleAddSource w f = SourcesTab.Added s
    /\ Source.title s <> ""
    /\ (forall found,
          fetchJsonTitle w ("https://noembed.com/embed?url=" ++ SourcesTab.inputValue f)
          = Some found ->
          found <> "" -> Source.title s = found)
    /\ (fetchJsonTitle w ("https://noembed.com/embed?url=" ++ SourcesTab.inputValue f) = None
        \/ fetchJsonTitle w ("https://noembed.com/embed?url=" ++ SourcesTab.inputValue f)
           = Some "" ->
        Source.title s = orElse (SourcesTab.titleValue f) "YouTube Video").
Proof.
  intros Hm Hmark.
  destruct (handleAddSource_youtube w f Hm Hmark) as [title [Ht Hadd]].
  eexists. split; [exact Hadd|]. cbn [Source.title]. rewrite Ht. repeat split.
  - apply truthy_true_iff. now apply orElse_truthy.
  - intros found -> Hne. apply truthy_true_iff in Hne. rewrite Hne.
    unfold orElse. now rewrite Hne.
  - intros [-> | ->]; reflexivity.
Qed.

Lemma youtube_title_precedence_lookup_wins :
  exists s,
    SourcesTab.handleAddSource
      {| fetch := fun _ => None; fetchJsonTitle := fun _ => Some "Cat video";
         randomUUID := "u"; now := 5; toLocaleTimeString := "noon" |}
      {| SourcesTab.activeModal := Some Modal.youtube; SourcesTab.fileType := None;
         SourcesTab.inputValue := "https://youtu.be/abc";
         SourcesTab.titleValue := "My title"; SourcesTab.selectedFile := None |}
    = SourcesTab.Added s
    /\ Source.title s = "Cat video".
Proof.
  destruct (youtube_title_precedence
              {| fetch := fun _ => None; fetchJsonTitle := fun _ => Some "Cat video";
                 randomUUID := "u"; now := 5; toLocaleTimeString := "noon" |}
              {| SourcesTab.activeModal := Some Modal.youtube; SourcesTab.fileType := None;
                 SourcesTab.inputValue := "https://youtu.be/abc";
                 SourcesTab.titleValue := "My title"; SourcesTab.selectedFile := None |})
    as [s [Hadd [_ [Hfound _]]]]; [reflexivity | right; reflexivity|].
  exists s. split; [exact Hadd|]. apply Hfound; [reflexivity | discriminate].
Defined.

(** ** Files *)

(** The transcriber returns the empty string for one kind of file only:
    a text file that is empty. *)
Lemma processFileWithGemini_empty_iff (file : File.t) (mimeType : string) :
  Ai.processFileWithGemini file mimeType = ""
  <-> Js.startsWith mimeType "text/" = true /\ File.text file = Some "".
Proof.
  unfold Ai.processFileWithGemini, tryCatch.
  destruct (Js.startsWith mimeType "text/").
  - destruct (File.text file) as [t|].
    + split; [intros ->; now split | intros [_ H]; now injection H].
    + split; [discriminate | intros [_ H]; discriminate].
  - split; [discriminate | intros [H _]; discriminate].
Qed.

(** X4: with a file and a file kind selected, the request fails in one
    case only, a file of a [text/] type whose text is empty; in every
    other case a source is added whose type is the kind selected, whose
    content is what [processFileWithGemini] returned, whose title is the
    title typed or else the file's name, and whose metadata holds the
    file's name and size. *)
Theorem file_request_outcome (w : World) (f : SourcesTab.Form)
    (file : File.t) (ft : FileType.t) :
  SourcesTab.activeModal f = Some Modal.file ->
  SourcesTab.selectedFile f = Some file ->
  SourcesTab.fileType f = Some ft ->
  (Js.startsWith (File.type file) "text/" = true /\ File.text file = Some "" ->
   SourcesTab.handleAddSource w f = SourcesTab.Failed "No content could be extracted.")
  /\ (~ (Js.startsWith (File.type file) "text/" = true /\ File.text file = Some "") ->
      SourcesTab.handleAddSource w f =
        SourcesTab.Added
          (Source.mk (randomUUID w) (FileType.toSourceType ft)
             (orElse (SourcesTab.titleValue f) (File.name file))
             (Ai.processFileWithGemini file (File.type file)) (now w)
             [("filename", MetaString (File.name file));
              ("size", MetaNumber (File.size file))])).
Proof.
  intros Hm Hfile Hft.
  pose proof (handleAddSource_file w f file ft Hm Hfile Hft) as Hi.
  pose proof (processFileWithGemini_empty_iff file (File.type file)) as He.
  unfold SourcesTab.handleAddSource. rewrite Hi. split.
  - intros Hempty. apply He in Hempty. now rewrite Hempty.
  - intros Hnot.
    destruct (Js.truthy (Ai.processFileWithGemini file (File.type file))) eqn:Ht;
      [reflexivity|].
    apply truthy_false_iff in Ht. now apply He in Ht.
Qed.

Lemma file_request_outcome_picture :
  exists s,
    SourcesTab.handleAddSource Sample.offline
      (Sample.form Modal.file (Some FileType.image) "" (Some Sample.picture))
    = SourcesTab.Added s
    /\ Source.type s = SourceType.image
    /\ Source.title s = "cat.png".
Proof.
  destruct (file_request_outcome Sample.offline
              (Sample.form Modal.file (Some FileType.image) "" (Some Sample.picture))
              Sample.picture FileType.image eq_refl eq_refl eq_refl) as [_ Hadd].
  eexists. split; [apply Hadd; intros [H _]; discriminate|]. split; reflexivity.
Defined.

(** X5: a file of a [text/] type that cannot be read is not rejected: a
    source is added whose content is the sentence
    [Could not process file NAME.] *)
Theorem unreadable_text_file_added (w : World) (f : SourcesTab.Form)
    (file : File.t) (ft : FileType.t) :
  SourcesTab.activeModal f = Some Modal.file ->
  SourcesTab.selectedFile f = Some file ->
  SourcesTab.fileType f = Some ft ->
  Js.startsWith (File.type file) "text/" = true ->
  File.text file = None ->
  exists s,
    SourcesTab.handleAddSource w f = SourcesTab.Added s
    /\ Source.content s = "Could not process file " ++ File.name file ++ "."
    /\ Source.type s = FileType.toSourceType ft.
Proof.
  intros Hm Hfile Hft Hmime Htext.
  pose proof (handleAddSource_file w f file ft Hm Hfile Hft) as Hi.
  unfold SourcesTab.handleAddSource. rewrite Hi.
  unfold Ai.processFileWithGemini, tryCatch. rewrite Hmime, Htext.
  cbn [Js.truthy append]. eexists. split; [reflexivity|]. split; reflexivity.
Qed.

Lemma unreadable_text_file_added_notes :
  exists s,
    SourcesTab.handleAddSource Sample.offline
      (Sample.form Modal.file (Some FileType.pdf) ""
         (Some (File.mk "notes.txt" "text/plain" 12 None)))
    = SourcesTab.Added s
    /\ Source.content s = "Could not process file notes.txt.".
Proof.
  destruct (unreadable_text_file_added Sample.offline
              (Sample.form Modal.file (Some FileType.pdf) ""
                 (Some (File.mk "notes.txt" "text/plain" 12 None)))
              (File.mk "notes.txt" "text/plain" 12 None) FileType.pdf
              eq_refl eq_refl eq_refl eq_refl eq_refl) as [s [Hadd [Hc _]]].
  exists s. split; [exact Hadd | exact Hc].
Defined.

(** ** What every added source looks like *)

(** X6: a source added from pasted text, a website or a YouTube link
    always has a non-empty title; a source added from a file has an
    empty title exactly when no title was typed and the file's name is
    empty. *)
Theorem added_title (w : World) (f : SourcesTab.Form) (s : Source.t) :
  SourcesTab.handleAddSource w f = SourcesTab.Added s ->
  (SourcesTab.activeModal f <> Some Modal.file -> Source.title s <> "")
  /\ (forall file,
        SourcesTab.activeModal f = Some Modal.file ->
        SourcesTab.selectedFile f = Some file ->
        (Source.title s = ""
         <-> SourcesTab.titleValue f = "" /\ File.name file = "")).
Proof.
  intros Hs. apply handleAddSource_Added, ingest_inr in Hs.
  destruct Hs as [d [Hd [Ht ->]]]. cbn [Source.title].
  unfold SourcesTab.dispatch in Hd.
  destruct (SourcesTab.activeModal f) as [[| | |]|].
  - injection Hd as <-. cbn [SourcesTab.finalTitle]. split; [|discriminate].
    intros _. apply truthy_true_iff. now apply orElse_truthy.
  - destruct (Js.startsWith (SourcesTab.inputValue f) "http") eqn:Hh; [|discriminate].
    injection Hd as <-. cbn [SourcesTab.finalTitle]. split; [|discriminate].
    intros _. apply truthy_true_iff, orElse_truthy, truthy_true_iff.
    apply startsWith_nonempty with "http"; [exact Hh | discriminate].
  - destruct (_ && _); [discriminate|]. injection Hd as <-.
    cbn [SourcesTab.finalTitle]. split; [|discriminate].
    intros _. apply truthy_true_iff. now apply orElse_truthy.
  - split; [congruence|]. intros file _ Hfile. rewrite Hfile in Hd.
    destruct (SourcesTab.fileType f) as [ft|]; injection Hd as <-.
    + cbn [SourcesTab.finalTitle]. unfold orElse.
      destruct (SourcesTab.titleValue f) as [|c t]; simpl.
      * split; [intros ->; now split | now intros [_ ->]].
      * split; [discriminate | intros [H _]; discriminate].
    + discriminate.
  - injection Hd as <-. discriminate.
Qed.

Lemma added_title_pasted :
  exists s,
    SourcesTab.handleAddSource Sample.offline
      (Sample.form Modal.text None "some notes" None) = SourcesTab.Added s
    /\ Source.title s <> "".
Proof.
  eexists. split; [reflexivity|].
  refine (proj1 (added_title Sample.offline
                   (Sample.form Modal.text None "some notes" None) _ eq_refl) _).
  discriminate.
Defined.

(** X7: the "Add Source" button is disabled, outside processing, only
    when there is neither text in the input nor a file; in that state a
    click would add nothing, whatever modal is open: the request fails
    with an error message. *)
Theorem disabled_button_blocks_only_failures (w : World) (f : SourcesTab.Form) :
  SourcesTab.addDisabled false f = true ->
  exists message,
    SourcesTab.handleAddSource w f = SourcesTab.Failed message /\ message <> "".
Proof.
  unfold SourcesTab.addDisabled. rewrite orb_false_l, andb_true_iff, !negb_true_iff.
  intros [Hin Hfile]. apply truthy_false_iff in Hin.
  destruct (SourcesTab.selectedFile f) as [file|] eqn:Hsel; [discriminate|].
  unfold SourcesTab.handleAddSource, SourcesTab.ingest, SourcesTab.dispatch.
  rewrite Hin, Hsel.
  destruct (SourcesTab.activeModal f) as [[| | |]|]; cbn;
    eexists; (split; [reflexivity | discriminate]).
Qed.

Lemma disabled_button_blocks_only_failures_empty_url :
  exists message,
    SourcesTab.handleAddSource Sample.offline (Sample.form Modal.website None "" None)
    = SourcesTab.Failed message /\ message <> "".
Proof.
  apply (disabled_button_blocks_only_failures Sample.offline
           (Sample.form Modal.website None "" None)).
  reflexivity.
Defined.

(** X8: the second line of the card of a source just added: [Pasted
    Content] for pasted text, the url for a website or a YouTube link,
    and for a file its name, or [File Upload] when the name is empty. *)
Theorem added_card_subtitle (w : World) (f : SourcesTab.Form) (s : Source.t) :
  SourcesTab.handleAddSource w f = SourcesTab.Added s ->
  match SourcesTab.activeModal f, SourcesTab.selectedFile f with
  | Some Modal.text, _ =>
      SourcesTab.cardSubtitle s = MetaString "Pasted Content"
  | Some Modal.website, _ | Some Modal.youtube, _ =>
      SourcesTab.cardSubtitle s = MetaString (SourcesTab.inputValue f)
  | Some Modal.file, Some file =>
      SourcesTab.cardSubtitle s = MetaString (orElse (File.name file) "File Upload")
  | _, _ => False
  end.
Proof.
  intros Hs. apply handleAddSource_Added, ingest_inr in Hs.
  destruct Hs as [d [Hd [Ht ->]]].
  unfold SourcesTab.dispatch in Hd.
  destruct (SourcesTab.activeModal f) as [[| | |]|].
  - injection Hd as <-. reflexivity.
  - destruct (Js.startsWith (SourcesTab.inputValue f) "http") eqn:Hh; [|discriminate].
    injection Hd as <-.
    apply startsWith_nonempty in Hh; [|discriminate]. apply truthy_true_iff in Hh.
    unfold SourcesTab.cardSubtitle. cbn. now rewrite Hh.
  - destruct (Js.includes (SourcesTab.inputValue f) "youtube.com") eqn:Hcom;
      destruct (Js.includes (SourcesTab.inputValue f) "youtu.be") eqn:Hbe;
      try discriminate; injection Hd as <-;
      [apply includes_nonempty in Hcom | apply includes_nonempty in Hcom
       | apply includes_nonempty in Hbe]; try discriminate;
      [apply truthy_true_iff in Hcom | apply truthy_true_iff in Hcom
       | apply truthy_true_iff in Hbe];
      unfold SourcesTab.cardSubtitle; cbn;
      match goal with H : Js.truthy _ = true |- _ => now rewrite H end.
  - destruct (SourcesTab.selectedFile f) as [file|];
      [destruct (SourcesTab.fileType f) as [[| |]|]|];
      injection Hd as <-; try discriminate;
      unfold SourcesTab.cardSubtitle, orElse; cbn;
      now destruct (Js.truthy (File.name file)).
  - injection Hd as <-. discriminate.
Qed.

Lemma added_card_subtitle_website :
  exists s,
    SourcesTab.handleAddSource Sample.offline
      (Sample.form Modal.website None "https://example.com/" None) = SourcesTab.Added s
    /\ SourcesTab.cardSubtitle s = MetaString "https://example.com/".
Proof.
  eexists. split; [reflexivity|].
  exact (added_card_subtitle Sample.offline
           (Sample.form Modal.website None "https://example.com/" None) _ eq_refl).
Defined.

(** ** The notebook store: how the operations compose *)

Section StoreFacts.

Lemma filter_filter_comm {A : Type} (p q : A -> bool) (l : list A) :
  filter p (filter q l) = filter q (filter p l).
Proof.
  induction l as [|x l IH]; simpl; [reflexivity|].
  destruct (p x) eqn:Hp, (q x) eqn:Hq; simpl; rewrite ?Hp, ?Hq, IH; reflexivity.
Qed.

Lemma filter_idempotent {A : Type} (p : A -> bool) (l : list A) :
  filter p (filter p l) = filter p l.
Proof.
  induction l as [|x l IH]; simpl; [reflexivity|].
  destruct (p x) eqn:Hp; simpl; rewrite ?Hp, IH; reflexivity.
Qed.

(** Replacing by id leaves a list alone when no element has the id. *)
Lemma replace_absent (u : Source.t) (l : list Source.t) :
  (forall s, In s l -> Source.id s <> Source.id u) ->
  map (fun s => if String.eqb (Source.id s) (Source.id u) then u else s) l = l.
Proof.
  induction l as [|x l IH]; intros Hno; simpl; [reflexivity|].
  destruct (String.eqb_spec (Source.id x) (Source.id u)) as [He|_].
  - exfalso. apply (Hno x); [now left | exact He].
  - f_equal. apply IH. intros s Hs. apply Hno. now right.
Qed.

End StoreFacts.

(** X9: adding a source and then deleting it by its id gives back the
    list of sources the notebook had, provided no source of the notebook
    already had that id. *)
Theorem add_then_delete (notebook : Notebook.t) (source : Source.t) (t1 t2 : Z) :
  (forall s, In s (Notebook.sources notebook) -> Source.id s <> Source.id source) ->
  Notebook.sources
    (NotebookView.deleteSource (NotebookView.addSource notebook source t1)
       (Source.id source) t2)
  = Notebook.sources notebook.
Proof.
  intros Hfresh. simpl. rewrite filter_app. simpl.
  rewrite String.eqb_refl. simpl. rewrite app_nil_r.
  apply filter_all. intros s Hs.
  apply negb_true_iff, String.eqb_neq. now apply Hfresh.
Qed.

Lemma add_then_delete_sample :
  Notebook.sources
    (NotebookView.deleteSource
       (NotebookView.addSource Sample.notebook
          (Source.mk "s9" SourceType.website "Site" "text" 9 []) 2000)
       "s9" 3000)
  = Notebook.sources Sample.notebook.
Proof.
  apply (add_then_delete Sample.notebook
           (Source.mk "s9" SourceType.website "Site" "text" 9 []) 2000 3000).
  intros s [<- | [<- | [<- | []]]]; discriminate.
Defined.

(** X10: deleting by id removes every source with that id; deleting the
    same id again changes no source, and two deletions give the same
    sources in either order. *)
Theorem deleteSource_composes (notebook : Notebook.t) (i j : string) (t1 t2 t3 t4 : Z) :
  (forall s, In s (Notebook.sources (NotebookView.deleteSource notebook i t1)) ->
             Source.id s <> i)
  /\ Notebook.sources
       (NotebookView.deleteSource (NotebookView.deleteSource notebook i t1) i t2)
     = Notebook.sources (NotebookView.deleteSource notebook i t1)
  /\ Notebook.sources
       (NotebookView.deleteSource (NotebookView.deleteSource notebook i t1) j t2)
     = Notebook.sources
         (NotebookView.deleteSource (NotebookView.deleteSource notebook j t3) i t4).
Proof.
  simpl. split; [|split].
  - intros s Hs. apply filter_In in Hs. destruct Hs as [_ Hs].
    now apply negb_true_iff, String.eqb_neq in Hs.
  - apply filter_idempotent.
  - apply filter_filter_comm.
Qed.

(** X11: [editSource] never changes how many sources there are, nor
    their ids, nor the order of the ids; when no source has the id of
    the source handed in, the sources are left exactly as they were,
    though the notebook is stamped with the new time all the same. *)
Theorem editSource_keeps_ids (notebook : Notebook.t) (updatedSource : Source.t) (now : Z) :
  map Source.id (Notebook.sources (NotebookView.editSource notebook updatedSource now))
  = map Source.id (Notebook.sources notebook)
  /\ Notebook.updatedAt (NotebookView.editSource notebook updatedSource now) = now
  /\ ((forall s, In s (Notebook.sources notebook) ->
                 Source.id s <> Source.id updatedSource) ->
      Notebook.sources (NotebookView.editSource notebook updatedSource now)
      = Notebook.sources notebook).
Proof.
  simpl. split; [|split; [reflexivity | apply replace_absent]].
  rewrite map_map. apply map_ext. intros s.
  now destruct (String.eqb_spec (Source.id s) (Source.id updatedSource)).
Qed.

(** An edit that goes through rewrites the source in place. *)
Lemma editSourceTitle_split (notebook : Notebook.t) (source : Source.t)
    (newTitle : string) (now : Z) :
  In source (Notebook.sources notebook) ->
  NoDup (map Source.id (Notebook.sources notebook)) ->
  Js.trim newTitle <> "" ->
  newTitle <> Source.title source ->
  Notebook.updatedAt (editSourceTitle notebook source (Some newTitle) now) = now
  /\ exists before after,
       Notebook.sources notebook = (before ++ source :: after)%list
       /\ Notebook.sources (editSourceTitle notebook source (Some newTitle) now)
          = (before ++ Source.withTitle source (Js.trim newTitle) :: after)%list.
Proof.
  intros Hin Hnodup Htrim Hnew.
  assert (Hne : newTitle <> "") by (intros ->; now apply Htrim).
  unfold editSourceTitle, SourcesTab.editClick.
  apply truthy_true_iff in Htrim, Hne. apply String.eqb_neq in Hnew.
  rewrite Htrim, Hne, Hnew. cbn [andb negb].
  split; [reflexivity|].
  destruct (in_split _ _ Hin) as [before [after Hsplit]].
  exists before, after. split; [exact Hsplit|].
  cbn [NotebookView.editSource Notebook.sources]. rewrite Hsplit in Hnodup |- *.
  rewrite map_app in Hnodup. cbn [map] in Hnodup.
  apply NoDup_remove_2 in Hnodup.
  assert (Hothers : forall s, In s (before ++ after)%list ->
                              Source.id s <> Source.id source).
  { intros s Hs He. apply Hnodup. rewrite <- map_app, <- He. now apply in_map. }
  rewrite map_app. cbn [map Source.withTitle Source.id].
  rewrite String.eqb_refl. f_equal; [|f_equal].
  - apply (replace_absent (Source.withTitle source (Js.trim newTitle))).
    intros s Hs. apply Hothers, in_or_app. now left.
  - apply (replace_absent (Source.withTitle source (Js.trim newTitle))).
    intros s Hs. apply Hothers, in_or_app. now right.
Qed.


(** X12: retitling one of the notebook's sources with a title that is
    not blank and differs from the current one, in a notebook whose
    sources have distinct ids: the notebook is stamped with the new
    time, the source gets the trimmed title at its place in the list,
    and every other source is left as it was. *)
Theorem editSourceTitle_changes_one (notebook : Notebook.t) (source : Source.t)
    (newTitle : string) (now : Z) :
  In source (Notebook.sources notebook) ->
  NoDup (map Source.id (Notebook.sources notebook)) ->
  Js.trim newTitle <> "" ->
  newTitle <> Source.title source ->
  Notebook.updatedAt (editSourceTitle notebook source (Some newTitle) now) = now
  /\ exists before after,
       Notebook.sources notebook = (before ++ source :: after)%list
       /\ Notebook.sources (editSourceTitle notebook source (Some newTitle) now)
          = (before ++ Source.withTitle source (Js.trim newTitle) :: after)%list.
Proof. exact (editSourceTitle_split notebook source newTitle now). Qed.

Lemma editSourceTitle_changes_one_sample :
  Notebook.sources (editSourceTitle Sample.notebook Sample.dogs (Some " Hounds ") 2000)
  = [Sample.cats; Source.withTitle Sample.dogs "Hounds"; Sample.foo]
  /\ Notebook.updatedAt (editSourceTitle Sample.notebook Sample.dogs (Some " Hounds ") 2000)
     = 2000%Z.
Proof.
  destruct (editSourceTitle_changes_one Sample.notebook Sample.dogs " Hounds " 2000)
    as [Hat _].
  - simpl. tauto.
  - repeat constructor; simpl; intuition discriminate.
  - discriminate.
  - discriminate.
  - split; [reflexivity | exact Hat].
Defined.

(** X13: saving the same text as notebook title a second time changes
    nothing, not even the time stamp; the sources are never touched, and
    a notebook whose title is not empty never gets an empty one. *)
Theorem saveTitle_twice (notebook : Notebook.t) (editedTitle : string) (t1 t2 : Z) :
  NotebookView.saveTitle (NotebookView.saveTitle notebook editedTitle t1) editedTitle t2
  = NotebookView.saveTitle notebook editedTitle t1
  /\ Notebook.sources (NotebookView.saveTitle notebook editedTitle t1)
     = Notebook.sources notebook
  /\ (Notebook.title notebook <> "" ->
      Notebook.title (NotebookView.saveTitle notebook editedTitle t1) <> "").
Proof.
  unfold NotebookView.saveTitle.
  destruct (Js.truthy (Js.trim editedTitle)
            && negb (String.eqb (Js.trim editedTitle) (Notebook.title notebook))) eqn:Hg.
  - cbn [Notebook.title Notebook.sources].
    rewrite String.eqb_refl. cbn [negb]. rewrite andb_false_r.
    repeat split. intros _. apply andb_true_iff in Hg.
    now apply truthy_true_iff.
  - rewrite Hg. now repeat split.
Qed.

(** ** Characters, white space and letter case *)

Section CharFacts.

Lemma take_drop (n : nat) (s : string) : Js.take n s ++ Js.drop n s = s.
Proof.
  revert s. induction n as [|n IH]; intros [|b s]; simpl; try reflexivity.
  now rewrite IH.
Qed.

Lemma length_drop (n : nat) (s : string) : length (Js.drop n s) <= length s.
Proof.
  revert s. induction n as [|n IH]; intros [|b s]; simpl; try lia.
  specialize (IH s). lia.
Qed.

Lemma take_exact (r x : string) : Js.take (length r) (r ++ x) = r.
Proof. induction r as [|b r IH]; simpl; [now destruct x | now rewrite IH]. Qed.

Lemma drop_exact (r x : string) : Js.drop (length r) (r ++ x) = x.
Proof. induction r as [|b r IH]; simpl; [reflexivity | exact IH]. Qed.

Lemma length_take (n : nat) (s : string) :
  Js.drop n s <> "" -> length (Js.take n s) = n.
Proof.
  revert s. induction n as [|n IH]; intros [|b s] H; simpl in *;
    try reflexivity; try congruence.
  now rewrite IH.
Qed.

Lemma charLen_pos (b : ascii) : exists m, Js.charLen b = S m.
Proof.
  unfold Js.charLen.
  destruct (nat_of_ascii b <? 192)%nat; [now exists 0|].
  destruct (nat_of_ascii b <? 224)%nat; [now exists 1|].
  destruct (nat_of_ascii b <? 240)%nat; [now exists 2 | now exists 3].
Qed.

Lemma charsFrom_drop (k : nat) (s : string) :
  Js.charsFrom k s = Js.chars (Js.drop k s).
Proof.
  revert k. induction s as [|b s IH]; intros [|k]; try reflexivity.
  cbn [Js.charsFrom Js.drop]. apply IH.
Qed.

(** The first character, and then the characters of the rest. *)
Lemma chars_cons (b : ascii) (s : string) :
  Js.chars (String b s)
  = Js.take (Js.charLen b) (String b s)
    :: Js.chars (Js.drop (Js.charLen b) (String b s)).
Proof.
  unfold Js.chars at 1. cbn [Js.charsFrom]. rewrite charsFrom_drop.
  destruct (charLen_pos b) as [m ->]. cbn [Js.drop].
  now replace (S m - 1) with m by lia.
Qed.

(** Induction along the characters of a string. *)
Lemma chars_ind (P : string -> Prop) :
  P "" ->
  (forall b s, P (Js.drop (Js.charLen b) (String b s)) -> P (String b s)) ->
  forall s, P s.
Proof.
  intros Hnil Hcons s.
  remember (length s) as n eqn:Hn.
  revert s Hn. induction n as [n IH] using lt_wf_ind. intros [|b s] Hn; [exact Hnil|].
  apply Hcons. apply (IH (length (Js.drop (Js.charLen b) (String b s)))); [|reflexivity].
  destruct (charLen_pos b) as [m ->]. cbn [Js.drop]. subst n. simpl.
  pose proof (length_drop m s). lia.
Qed.

Lemma join_app (a b : list string) : Js.join (a ++ b) = Js.join a ++ Js.join b.
Proof.
  induction a as [|c a IH]; simpl; [reflexivity|]. now rewrite IH, append_assoc.
Qed.

(** Splitting into characters loses nothing. *)
Lemma join_chars (s : string) : Js.join (Js.chars s) = s.
Proof.
  induction s as [|b s IH] using chars_ind; [reflexivity|].
  rewrite chars_cons. cbn [Js.join]. rewrite IH. apply take_drop.
Qed.

(** A character of a string is, on its own, one character. *)
Lemma chars_take (b : ascii) (s : string) :
  Js.chars (Js.take (Js.charLen b) (String b s))
  = [Js.take (Js.charLen b) (String b s)].
Proof.
  destruct (charLen_pos b) as [m Hm]. rewrite Hm. cbn [Js.take].
  rewrite chars_cons, Hm. cbn [Js.take Js.drop]. f_equal.
  - f_equal. clear. revert s. induction m as [|m IH]; intros [|c s]; simpl;
      try reflexivity. now rewrite IH.
  - replace (Js.drop m (Js.take m s)) with "".
    + reflexivity.
    + clear. revert s. induction m as [|m IH]; intros [|c s]; simpl;
        try reflexivity. apply IH.
Qed.

Lemma chars_single (s : string) :
  Forall (fun c => Js.chars c = [c] /\ c <> "") (Js.chars s).
Proof.
  induction s as [|b s IH] using chars_ind; [constructor|].
  rewrite chars_cons. constructor; [|exact IH]. split; [apply chars_take|].
  destruct (charLen_pos b) as [m ->]. discriminate.
Qed.

(** A whole character in front of a string is its first character. *)
Lemma chars_whole_append (c x : string) :
  Js.isWhole c = true -> Js.chars (c ++ x) = c :: Js.chars x.
Proof.
  destruct c as [|b r]; [discriminate|]. cbn [Js.isWhole]. intros H.
  apply Nat.eqb_eq in H. cbn [append]. rewrite chars_cons, <- H.
  change (String b (r ++ x)) with (String b r ++ x).
  now rewrite take_exact, drop_exact.
Qed.

Lemma chars_append (p x : string) :
  forallb Js.isWhole (Js.chars p) = true ->
  Js.chars (p ++ x) = (Js.chars p ++ Js.chars x)%list.
Proof.
  induction p as [|b s IH] using chars_ind; [reflexivity|].
  rewrite chars_cons. cbn [forallb]. rewrite andb_true_iff. intros [Hc Hr].
  rewrite <- (take_drop (Js.charLen b) (String b s)) at 1.
  rewrite append_assoc, (chars_whole_append _ _ Hc), (IH Hr). reflexivity.
Qed.

(** The first character of a string that goes on is whole. *)
Lemma isWhole_take (b : ascii) (s : string) :
  Js.drop (Js.charLen b) (String b s) <> "" ->
  Js.isWhole (Js.take (Js.charLen b) (String b s)) = true.
Proof.
  intros Hrest. pose proof (length_take _ _ Hrest) as Hlen.
  destruct (charLen_pos b) as [m Hm]. rewrite Hm in *.
  cbn [Js.take] in *. cbn [Js.isWhole]. rewrite Hm. now apply Nat.eqb_eq.
Qed.

End CharFacts.

Section TrimFacts.

Context {A : Type}.
Variable p : A -> bool.

Lemma dropWhile_nil_iff (l : list A) :
  Js.dropWhile p l = [] <-> forallb p l = true.
Proof.
  induction l as [|x l IH]; simpl; [tauto|].
  destruct (p x); simpl; [exact IH | split; discriminate].
Qed.

Lemma forallb_dropWhile (l : list A) :
  forallb p (Js.dropWhile p l) = true -> Js.dropWhile p l = [].
Proof.
  induction l as [|x l IH]; simpl; [reflexivity|].
  destruct (p x) eqn:Hx; [exact IH|]. simpl. rewrite Hx. discriminate.
Qed.

Lemma forallb_rev_eq (l : list A) : forallb p (rev l) = forallb p l.
Proof.
  induction l as [|x l IH]; simpl; [reflexivity|].
  rewrite forallb_app, IH. simpl. rewrite andb_true_r. apply andb_comm.
Qed.

Lemma dropWhile_suffix (l : list A) :
  exists before, l = (before ++ Js.dropWhile p l)%list.
Proof.
  induction l as [|x l [before IH]]; simpl; [now exists []|].
  destruct (p x); [|now exists []].
  exists (x :: before). simpl. now rewrite <- IH.
Qed.

Lemma dropWhileEnd_prefix (l : list A) :
  exists after, l = (Js.dropWhileEnd p l ++ after)%list.
Proof.
  unfold Js.dropWhileEnd. destruct (dropWhile_suffix (rev l)) as [before H].
  exists (rev before). rewrite <- rev_app_distr, <- H. symmetry. apply rev_involutive.
Qed.

Lemma dropWhileEnd_nil_iff (l : list A) :
  Js.dropWhileEnd p l = [] <-> forallb p l = true.
Proof.
  unfold Js.dropWhileEnd. rewrite <- forallb_rev_eq, <- dropWhile_nil_iff.
  split; intros H.
  - apply (f_equal (@rev A)) in H. now rewrite rev_involutive in H.
  - now rewrite H.
Qed.

End TrimFacts.

Section WhiteSpaceFacts.

Lemma join_nil_iff (l : list string) :
  Forall (fun c => c <> "") l -> (Js.join l = "" <-> l = []).
Proof.
  intros Hne. split; [|now intros ->].
  destruct Hne as [|c l Hc _]; [reflexivity|].
  destruct c; [congruence | discriminate].
Qed.

(** [trim] gives the empty string exactly for strings of white space. *)
Lemma trim_empty_iff (s : string) :
  Js.trim s = "" <-> Js.allWhiteSpace s = true.
Proof.
  unfold Js.trim, Js.allWhiteSpace.
  rewrite join_nil_iff.
  - rewrite dropWhileEnd_nil_iff. split; intros H.
    + now apply dropWhile_nil_iff, forallb_dropWhile.
    + apply dropWhile_nil_iff in H. now rewrite H.
  - apply Forall_forall. intros c Hc.
    destruct (dropWhileEnd_prefix Js.isWhiteSpace
                (Js.dropWhile Js.isWhiteSpace (Js.chars s))) as [after Ha].
    destruct (dropWhile_suffix Js.isWhiteSpace (Js.chars s)) as [before Hb].
    pose proof (chars_single s) as Hs. rewrite Forall_forall in Hs.
    apply Hs. rewrite Hb, Ha. apply in_or_app. right. apply in_or_app. now left.
Qed.

(** What [trim] returns is a stretch of the string. *)
Lemma trim_substring (s : string) : exists a b, s = a ++ Js.trim s ++ b.
Proof.
  unfold Js.trim.
  destruct (dropWhileEnd_prefix Js.isWhiteSpace
              (Js.dropWhile Js.isWhiteSpace (Js.chars s))) as [after Ha].
  destruct (dropWhile_suffix Js.isWhiteSpace (Js.chars s)) as [before Hb].
  exists (Js.join before), (Js.join after).
  rewrite <- join_app, <- Ha, <- join_app, <- Hb. symmetry. apply join_chars.
Qed.

(** White space has no lower-case form of its own. *)
Lemma lowerOne_whiteSpace (afterCased : bool) (c : string) (rest : list string) :
  Js.isWhiteSpace c = true -> Js.lowerOne afterCased c rest = c.
Proof.
  unfold Js.isWhiteSpace. rewrite existsb_exists. intros [w [Hin Hw]].
  apply String.eqb_eq in Hw. subst w. unfold Js.whiteSpaceChars in Hin.
  repeat (destruct Hin as [<- | Hin]; [vm_compute; reflexivity|]).
  destruct Hin.
Qed.

(** Every lower-case form of the table is made of whole characters that
    are not all white space; so is the final sigma. *)
Lemma lowerTable_forms :
  forallb (fun e => forallb Js.isWhole (Js.chars (snd e))
                    && negb (forallb Js.isWhiteSpace (Js.chars (snd e))))
    (((931%N, "ς") :: Unicode.lowerTable)) = true.
Proof. vm_compute. reflexivity. Qed.

Lemma lowerOne_cases (afterCased : bool) (c : string) (rest : list string) :
  Js.lowerOne afterCased c rest = c
  \/ (forallb Js.isWhole (Js.chars (Js.lowerOne afterCased c rest)) = true
      /\ forallb Js.isWhiteSpace (Js.chars (Js.lowerOne afterCased c rest)) = false).
Proof.
  pose proof lowerTable_forms as Hforms. rewrite forallb_forall in Hforms.
  assert (Hok : forall e, In e ((931%N, "ς") :: Unicode.lowerTable) ->
                forallb Js.isWhole (Js.chars (snd e)) = true
                /\ forallb Js.isWhiteSpace (Js.chars (snd e)) = false).
  { intros e He. apply Hforms in He. apply andb_true_iff in He.
    destruct He as [H1 H2]. now apply negb_true_iff in H2. }
  unfold Js.lowerOne. destruct (Js.codePoint c) as [cp|]; [|now left].
  destruct (find _ Unicode.lowerTable) as [e|] eqn:Hfind; [|now left].
  apply find_some in Hfind. destruct Hfind as [Hin _]. right.
  destruct (cp =? 931)%N; [destruct (afterCased && negb (Js.beforeCased rest))|].
  - apply (Hok (931%N, "ς")). now left.
  - apply Hok. now right.
  - apply Hok. now right.
Qed.

(** The characters of a lower-cased string are those of its pieces. *)
Lemma chars_join_lowerChars (s : string) :
  forall afterCased,
    Js.chars (Js.join (Js.lowerChars afterCased (Js.chars s)))
    = flat_map Js.chars (Js.lowerChars afterCased (Js.chars s)).
Proof.
  induction s as [|b s IH] using chars_ind; intros afterCased; [reflexivity|].
  rewrite chars_cons. cbn [Js.lowerChars Js.join flat_map].
  destruct (Js.drop (Js.charLen b) (String b s)) as [|b' s'] eqn:Hrest.
  - cbn [Js.chars Js.charsFrom Js.lowerChars Js.join flat_map].
    now rewrite append_empty_r, app_nil_r.
  - rewrite <- Hrest in *.
    assert (Hwhole : Js.isWhole (Js.take (Js.charLen b) (String b s)) = true).
    { apply isWhole_take. rewrite Hrest. discriminate. }
    rewrite chars_append.
    + now rewrite IH.
    + destruct (lowerOne_cases afterCased (Js.take (Js.charLen b) (String b s))
                  (Js.chars (Js.drop (Js.charLen b) (String b s)))) as [-> | [H _]];
        [|exact H].
      rewrite chars_take. cbn [forallb]. now rewrite Hwhole.
Qed.

Lemma forallb_whiteSpace_lowerChars (l : list string) :
  Forall (fun c => Js.chars c = [c] /\ c <> "") l ->
  forall afterCased,
    forallb Js.isWhiteSpace (flat_map Js.chars (Js.lowerChars afterCased l))
    = forallb Js.isWhiteSpace l.
Proof.
  induction 1 as [|c l [Hc _] _ IH]; intros afterCased; [reflexivity|].
  cbn [Js.lowerChars flat_map forallb]. rewrite forallb_app, IH.
  f_equal. destruct (Js.isWhiteSpace c) eqn:Hws.
  - rewrite (lowerOne_whiteSpace _ _ _ Hws), Hc. cbn [forallb].
    now rewrite Hws.
  - destruct (lowerOne_cases afterCased c l) as [-> | [_ H]]; [|exact H].
    rewrite Hc. cbn [forallb]. now rewrite Hws.
Qed.

(** Lower-casing keeps white space and makes none. *)
Lemma allWhiteSpace_toLowerCase (s : string) :
  Js.allWhiteSpace (Js.toLowerCase s) = Js.allWhiteSpace s.
Proof.
  unfold Js.allWhiteSpace, Js.toLowerCase.
  rewrite chars_join_lowerChars. apply forallb_whiteSpace_lowerChars, chars_single.
Qed.

(** Whether a string is blank can be read off its lower-case form. *)
Lemma truthy_trim_toLowerCase (s : string) :
  Js.truthy (Js.trim (Js.toLowerCase s)) = Js.truthy (Js.trim s).
Proof.
  destruct (Js.truthy (Js.trim s)) eqn:Hs.
  - apply truthy_true_iff. apply truthy_true_iff in Hs. intros H. apply Hs.
    apply trim_empty_iff. apply trim_empty_iff in H.
    now rewrite allWhiteSpace_toLowerCase in H.
  - apply truthy_false_iff. apply truthy_false_iff in Hs.
    apply trim_empty_iff. apply trim_empty_iff in Hs.
    now rewrite allWhiteSpace_toLowerCase.
Qed.

End WhiteSpaceFacts.

(** ** The search bar: retyping a query *)

Section SearchFacts.

Lemma matchesQuery_same_letters (q q' : string) (s : Source.t) :
  Js.toLowerCase q = Js.toLowerCase q' ->
  SourcesTab.matchesQuery q s = SourcesTab.matchesQuery q' s.
Proof.
  intros Hl. unfold SourcesTab.matchesQuery.
  rewrite <- (truthy_trim_toLowerCase q), <- (truthy_trim_toLowerCase q'), Hl.
  reflexivity.
Qed.

End SearchFacts.

(** X15: the letter case of the query does not matter: two queries with
    the same lower-case form show the same list. *)
Theorem displayedSources_query_case (sources : list Source.t) (q q' : string) :
  Js.toLowerCase q = Js.toLowerCase q' ->
  SourcesTab.displayedSources sources q = SourcesTab.displayedSources sources q'.
Proof.
  intros Hl. unfold SourcesTab.displayedSources.
  apply filter_ext. intros s. now apply matchesQuery_same_letters.
Qed.

Lemma displayedSources_query_case_cat :
  SourcesTab.displayedSources (Notebook.sources Sample.notebook) "CaT"
  = SourcesTab.displayedSources (Notebook.sources Sample.notebook) "cat".
Proof.
  apply (displayedSources_query_case (Notebook.sources Sample.notebook) "CaT" "cat").
  vm_compute. reflexivity.
Defined.

(** ** The page stripper *)

Section StripFacts.

Lemma eqb_lowerChar_lt (a : ascii) :
  Ascii.eqb (Js.lowerChar a) (Js.lowerChar "<") = Ascii.eqb a "<".
Proof.
  destruct a as [[] [] [] [] [] [] [] []]; vm_compute; reflexivity.
Qed.

Lemma includes_lt_cons (c : ascii) (s : string) :
  Js.includes (String c s) "<" = Ascii.eqb c "<" || Js.includes s "<".
Proof. simpl. now rewrite andb_true_r. Qed.

(** Text without [<] has no block to remove. *)
Lemma removeBlocksFrom_no_lt (opn close s : string) :
  Js.includes s "<" = false ->
  Js.removeBlocksFrom (String "<" opn) close 0 s = s.
Proof.
  induction s as [|c s IH]; [reflexivity|].
  rewrite includes_lt_cons, orb_false_iff. intros [Hc Hs].
  cbn [Js.removeBlocksFrom Js.startsWithCI]. rewrite eqb_lowerChar_lt, Hc.
  cbn [andb]. now rewrite IH.
Qed.

Lemma replaceTagsFrom_no_lt (s : string) :
  Js.includes s "<" = false -> Js.replaceTagsFrom 0 s = s.
Proof.
  induction s as [|c s IH]; [reflexivity|].
  rewrite includes_lt_cons, orb_false_iff. intros [Hc Hs].
  cbn [Js.replaceTagsFrom]. rewrite Hc. now rewrite IH.
Qed.

Lemma stripMarkup_no_lt (text : string) :
  Js.includes text "<" = false -> Ai.stripMarkup text = text.
Proof.
  intros H. unfold Ai.stripMarkup, Js.removeBlocks, Js.replaceTags.
  rewrite (removeBlocksFrom_no_lt "script" "</script>" text H).
  rewrite (removeBlocksFrom_no_lt "style" "</style>" text H).
  now apply replaceTagsFrom_no_lt.
Qed.

(** *** Blocks that are never closed *)

Lemma findCI_tail (close : string) (c : ascii) (s : string) :
  Js.findCI close (String c s) = None -> Js.findCI close s = None.
Proof.
  cbn [Js.findCI]. destruct (Js.startsWithCI (String c s) close); [discriminate|].
  now destruct (Js.findCI close s).
Qed.

Lemma findCI_drop (close : string) (n : nat) (s : string) :
  Js.findCI close s = None -> Js.findCI close (Js.drop n s) = None.
Proof.
  revert s. induction n as [|n IH]; intros s H; [now destruct s|].
  destruct s as [|c s]; [exact H|]. simpl. apply IH. now apply findCI_tail in H.
Qed.

Lemma removeBlocksFrom_unclosed (opn close s : string) :
  Js.findCI close s = None -> Js.removeBlocksFrom opn close 0 s = s.
Proof.
  induction s as [|c s IH]; intros H; [reflexivity|].
  cbn [Js.removeBlocksFrom].
  rewrite (findCI_drop close (length opn) _ H).
  rewrite (IH (findCI_tail _ _ _ H)).
  now destruct (Js.startsWithCI (String c s) opn).
Qed.

(** *** No tag survives *)

Lemma findGt_replaceTagsFrom_None (s : string) :
  Js.findGt s = None -> forall k, Js.findGt (Js.replaceTagsFrom k s) = None.
Proof.
  induction s as [|c s IH]; intros H k; [reflexivity|].
  cbn [Js.findGt] in H. destruct (Ascii.eqb c ">") eqn:Hgt; [discriminate|].
  destruct (Js.findGt s) as [n|] eqn:Hs; [discriminate|].
  cbn [Js.replaceTagsFrom]. destruct k as [|k]; [|now apply IH].
  rewrite Hs.
  destruct (Ascii.eqb c "<"); cbn [Js.findGt]; now rewrite Hgt, IH.
Qed.

Lemma findGt_replaceTagsFrom_zero (s : string) :
  Js.findGt s = Some 0 -> Js.findGt (Js.replaceTagsFrom 0 s) = Some 0.
Proof.
  destruct s as [|c s]; [discriminate|]. cbn [Js.findGt].
  destruct (Ascii.eqb c ">") eqn:Hgt.
  - intros _. apply Ascii.eqb_eq in Hgt. subst c.
    cbn [Js.replaceTagsFrom]. reflexivity.
  - destruct (Js.findGt s); discriminate.
Qed.

Lemma hasTag_replaceTagsFrom (s : string) :
  forall k, Js.hasTag (Js.replaceTagsFrom k s) = false.
Proof.
  induction s as [|c s IH]; intros k; [reflexivity|].
  cbn [Js.replaceTagsFrom]. destruct k as [|k]; [|apply IH].
  destruct (Ascii.eqb c "<") eqn:Hlt.
  - destruct (Js.findGt s) as [[|n]|] eqn:Hs.
    + cbn [Js.hasTag Js.tagAt]. rewrite IH, Hlt.
      now rewrite (findGt_replaceTagsFrom_zero _ Hs).
    + cbn [Js.hasTag Js.tagAt]. now rewrite IH.
    + cbn [Js.hasTag Js.tagAt]. rewrite IH, Hlt.
      now rewrite (findGt_replaceTagsFrom_None _ Hs).
  - cbn [Js.hasTag Js.tagAt]. now rewrite IH, Hlt.
Qed.

Lemma findGt_append (p r : string) (n : nat) :
  Js.findGt p = Some n -> Js.findGt (p ++ r) = Some n.
Proof.
  revert n. induction p as [|c p IH]; intros n; [discriminate|].
  cbn [Js.findGt append]. destruct (Ascii.eqb c ">"); [trivial|].
  destruct (Js.findGt p) as [m|]; [|discriminate].
  intros H. now rewrite (IH m eq_refl).
Qed.

Lemma hasTag_prefix (p r : string) :
  Js.hasTag (p ++ r) = false -> Js.hasTag p = false.
Proof.
  induction p as [|c p IH]; [reflexivity|].
  cbn [Js.hasTag Js.tagAt append]. rewrite !orb_false_iff.
  intros [Hat Hrest]. split; [|now apply IH].
  destruct (Ascii.eqb c "<"); [|reflexivity]. cbn [andb] in *.
  destruct (Js.findGt p) as [[|n]|] eqn:Hp; try reflexivity.
  now rewrite (findGt_append p r _ Hp) in Hat.
Qed.

Lemma hasTag_suffix (a x : string) :
  Js.hasTag (a ++ x) = false -> Js.hasTag x = false.
Proof.
  induction a as [|c a IH]; [trivial|].
  cbn [append Js.hasTag]. rewrite orb_false_iff. intros [_ H]. now apply IH.
Qed.

Lemma hasTag_trim (s : string) :
  Js.hasTag s = false -> Js.hasTag (Js.trim s) = false.
Proof.
  intros H. destruct (trim_substring s) as [a [b Hs]].
  rewrite Hs in H. apply hasTag_suffix in H. now apply hasTag_prefix in H.
Qed.

End StripFacts.

(** X16: a page whose text has no [<] at all is returned as it is, apart
    from the trimming; when it is blank the placeholder naming the url
    is returned instead. *)
Theorem plain_page_returned_trimmed (w : World) (url text : string) :
  fetch w url = Some text ->
  Js.includes text "<" = false ->
  Ai.fetchWebsiteContent w url = orElse (Js.trim text) ("Retrieved content from " ++ url).
Proof.
  intros Hf Hlt. unfold Ai.fetchWebsiteContent, tryCatch. rewrite Hf.
  cbv zeta. now rewrite stripMarkup_no_lt.
Qed.

Lemma plain_page_returned_trimmed_sample :
  Ai.fetchWebsiteContent
    {| fetch := fun _ => Some "  plain words  "; fetchJsonTitle := fun _ => None;
       randomUUID := "u"; now := 5; toLocaleTimeString := "noon" |}
    "http://example.com/a.txt"
  = "plain words".
Proof.
  apply (plain_page_returned_trimmed
           {| fetch := fun _ => Some "  plain words  "; fetchJsonTitle := fun _ => None;
              randomUUID := "u"; now := 5; toLocaleTimeString := "noon" |}
           "http://example.com/a.txt" "  plain words  "); reflexivity.
Defined.

(** X17: the text returned for a page that was fetched and has text left
    after stripping contains no tag: nowhere in it is there a [<]
    followed by one or more characters other than [>] and then a [>]. *)
Theorem fetched_text_has_no_tag (w : World) (url text : string) :
  fetch w url = Some text ->
  Js.trim (Ai.stripMarkup text) <> "" ->
  Js.hasTag (Ai.fetchWebsiteContent w url) = false.
Proof.
  intros Hf Hne. rewrite (fetchWebsiteContent_text w url text Hf Hne).
  apply hasTag_trim. unfold Ai.stripMarkup, Js.replaceTags.
  apply hasTag_replaceTagsFrom.
Qed.

Lemma fetched_text_has_no_tag_sample :
  Js.hasTag
    (Ai.fetchWebsiteContent
       {| fetch := fun _ => Some "<h1>Title</h1><p>Some <b>bold</b> words</p>";
          fetchJsonTitle := fun _ => None;
          randomUUID := "u"; now := 5; toLocaleTimeString := "noon" |}
       "http://example.com/") = false.
Proof.
  apply (fetched_text_has_no_tag
           {| fetch := fun _ => Some "<h1>Title</h1><p>Some <b>bold</b> words</p>";
              fetchJsonTitle := fun _ => None;
              randomUUID := "u"; now := 5; toLocaleTimeString := "noon" |}
           "http://example.com/" "<h1>Title</h1><p>Some <b>bold</b> words</p>");
    [reflexivity | discriminate].
Defined.

(** X18: a script or style block that is never closed is not removed as
    a block: on a page with no closing [</script>] and no closing
    [</style>], in any letter case, only the tags are replaced, and the
    text between them stays. *)
Theorem unclosed_blocks_kept (text : string) :
  Js.findCI "</script>" text = None ->
  Js.findCI "</style>" text = None ->
  Ai.stripMarkup text = Js.replaceTags text.
Proof.
  intros Hscript Hstyle. unfold Ai.stripMarkup, Js.removeBlocks.
  now rewrite (removeBlocksFrom_unclosed _ _ _ Hscript),
              (removeBlocksFrom_unclosed _ _ _ Hstyle).
Qed.

Lemma unclosed_blocks_kept_sample :
  Ai.stripMarkup "<p>a</p><script>var secret = 1;" = " a  var secret = 1;".
Proof.
  rewrite (unclosed_blocks_kept "<p>a</p><script>var secret = 1;"); reflexivity.
Defined.

(** ** Requests to the backend *)

(** X19: [postJson] hands back data in one case only: the response has
    a status from 200 to 299 and its body is an object without an
    [error] key.  With any other status it fails with a message naming
    the url and the status, whatever the body holds. *)
Theorem postJson_data_iff {T : Type} (http : Ai.Http T) (url : string) (body : Metadata) :
  (forall data,
     Ai.postJson http url body = inr data
     <-> exists status,
           http url body = Ai.Response status (Ai.Object None data)
           /\ (200 <= status <= 299)%Z)
  /\ (forall status b,
        http url body = Ai.Response status b ->
        ~ (200 <= status <= 299)%Z ->
        Ai.postJson http url body
        = inl ("Request to " ++ url ++ " failed with status " ++ Js.numberToString status)).
Proof.
  unfold Ai.postJson, Ai.ok. split.
  - intros data. split.
    + destruct (http url body) as [message|status b]; [discriminate|].
      destruct ((200 <=? status) && (status <=? 299))%Z eqn:Hok; [|discriminate].
      destruct b as [message|[error|] d]; try discriminate.
      intros H. injection H as ->. exists status. split; [reflexivity|]. lia.
    + intros [status [-> Hrange]].
      assert (Hok : ((200 <=? status) && (status <=? 299))%Z = true) by lia.
      now rewrite Hok.
  - intros status b -> Hrange.
    assert (Hok : ((200 <=? status) && (status <=? 299))%Z = false) by lia.
    now rewrite Hok.
Qed.

(** ** components/ChatTab *)

(** X20: sending with an input that is empty or white space only, or
    while an answer is still awaited, does nothing at all: the state is
    unchanged, no request is made and no alert is shown. *)
Theorem sendMessage_blank_or_busy (e : ChatTab.Env) (notebook : Notebook.t)
    (st : ChatTab.State) :
  Js.allWhiteSpace (ChatTab.input st) = true \/ ChatTab.loading st = true ->
  ChatTab.sendMessage e notebook st
  = {| ChatTab.state := st; ChatTab.alerted := None; ChatTab.prompted := None |}.
Proof.
  intros H. unfold ChatTab.sendMessage. cbv zeta.
  destruct H as [Hblank | Hbusy].
  - apply trim_empty_iff in Hblank. now rewrite Hblank.
  - now rewrite Hbusy, orb_true_r.
Qed.

Lemma sendMessage_blank_or_busy_spaces :
  ChatTab.sendMessage
    {| ChatTab.askedAt := 10; ChatTab.answeredAt := 20;
       ChatTab.http := fun _ _ => Ai.NoResponse "offline" |}
    Sample.notebook
    {| ChatTab.messages := []; ChatTab.input := "   "; ChatTab.loading := false;
       ChatTab.learningGuide := true |}
  = {| ChatTab.state :=
         {| ChatTab.messages := []; ChatTab.input := "   "; ChatTab.loading := false;
            ChatTab.learningGuide := true |};
       ChatTab.alerted := None; ChatTab.prompted := None |}.
Proof.
  apply (sendMessage_blank_or_busy
           {| ChatTab.askedAt := 10; ChatTab.answeredAt := 20;
              ChatTab.http := fun _ _ => Ai.NoResponse "offline" |}
           Sample.notebook
           {| ChatTab.messages := []; ChatTab.input := "   "; ChatTab.loading := false;
              ChatTab.learningGuide := true |}).
  left. reflexivity.
Defined.



(** ** components/QuizTab *)

Section QuizFacts.

Import QuizTab.

(** Either there is no question, or the current index points at one. *)
Lemma Reachable_index (st : State) :
  Reachable st ->
  forall qs, questions st = Some qs ->
  qs = [] \/ (0 <= currentIndex st < Z.of_nat (List.length qs))%Z.
Proof.
  induction 1 as [|st questionId value _ IH _|st _ IH _|http notebook st _ IH _];
    intros qs Hqs.
  - injection Hqs as <-. now left.
  - now apply IH.
  - unfold nextQuestion in *.
    destruct (questions st) as [qs0|] eqn:Hq; [|congruence].
    destruct (currentIndex st <? Z.of_nat (List.length qs0) - 1)%Z eqn:Hlt;
      cbn [questions currentIndex] in *; rewrite ?Hq in Hqs; injection Hqs as <-.
    + destruct (IH qs0 eq_refl) as [Hnil | Hrange]; [now left | right; lia].
    + now apply IH.
  - unfold handleGenerate in *.
    destruct (Ai.generateQuiz http (Notebook.id notebook) 5) as [message|got];
      cbn [fst questions currentIndex] in *; [now apply IH|].
    subst got. destruct qs as [|q qs]; [now left | right]. cbn [List.length]. lia.
Qed.

Lemma at_in_range {A : Type} (l : list A) (i : Z) :
  (0 <= i < Z.of_nat (List.length l))%Z -> exists x, at_ l i = Some x.
Proof.
  intros Hrange. unfold at_.
  assert (Hneg : (i <? 0)%Z = false) by lia. rewrite Hneg.
  destruct (nth_error l (Z.to_nat i)) as [x|] eqn:Hn; [now exists x|].
  apply nth_error_None in Hn. lia.
Qed.

(** The state after [k] clicks on the button below the question. *)
Lemma nextQuestion_iter (qs : list QuizQuestion) (a : Answers) (l : bool) (k : nat) :
  qs <> [] ->
  Nat.iter k nextQuestion
    {| questions := Some qs; currentIndex := 0; answers := a;
       showResults := false; loading := l |}
  = {| questions := Some qs;
       currentIndex := Z.min (Z.of_nat k) (Z.of_nat (List.length qs) - 1);
       answers := a;
       showResults := (List.length qs <=? k)%nat;
       loading := l |}.
Proof.
  intros Hne.
  assert (Hlen : (0 < List.length qs)%nat) by (destruct qs; [congruence | simpl; lia]).
  induction k as [|k IH].
  - unfold Nat.iter. cbn [nat_rect]. f_equal; [lia|].
    symmetry. apply Nat.leb_gt. exact Hlen.
  - rewrite Nat.iter_succ, IH. unfold nextQuestion. cbn [questions currentIndex
      answers showResults loading].
    destruct (Z.min (Z.of_nat k) (Z.of_nat (List.length qs) - 1)
              <? Z.of_nat (List.length qs) - 1)%Z eqn:Hlt.
    + f_equal; [lia|].
      transitivity false; [apply Nat.leb_gt | symmetry; apply Nat.leb_gt]; lia.
    + f_equal; [lia|]. symmetry. apply Nat.leb_le. lia.
Qed.

End QuizFacts.

(** X22: however the quiz was answered, advanced and regenerated, the
    current index never points outside the list of questions: whenever
    the component shows the question screen, it has a question to show.
    (Rendering as such fails when a response without [questions] has
    put [undefined] into the state; no step is taken from there.) *)
Theorem quiz_question_in_range (st : QuizTab.State) :
  QuizTab.Reachable st ->
  QuizTab.screen st <> QuizTab.Question None
  /\ (forall qs, QuizTab.questions st = Some qs ->
        qs = [] \/ (0 <= QuizTab.currentIndex st < Z.of_nat (List.length qs))%Z).
Proof.
  intros Hr. split; [|now apply Reachable_index].
  pose proof (Reachable_index st Hr) as Hidx. unfold QuizTab.screen.
  destruct (QuizTab.questions st) as [[|q qs]|] eqn:Hq; try discriminate.
  destruct (QuizTab.showResults st); [discriminate|].
  destruct (Hidx (q :: qs) eq_refl) as [Hnil | Hrange]; [discriminate|].
  destruct (at_in_range (q :: qs) _ Hrange) as [x Hx]. rewrite Hx. discriminate.
Qed.

Lemma quiz_question_in_range_second_question :
  QuizTab.screen
    (QuizTab.nextQuestion
       (fst (QuizTab.handleGenerate
               (fun _ _ =>
                  Ai.Response 200
                    (Ai.Object None
                       {| Ai.quizQuestions :=
                            Some [QuizTab.Build_QuizQuestion "q1" "One?" (Some ["a"; "b"])
                                    (Some 0%Z) None;
                                  QuizTab.Build_QuizQuestion "q2" "Two?" None None
                                    (Some "yes")] |}))
               Sample.notebook QuizTab.initial)))
  = QuizTab.Question
      (Some (QuizTab.Build_QuizQuestion "q2" "Two?" None None (Some "yes")))
  /\ QuizTab.screen
       (QuizTab.nextQuestion
          (fst (QuizTab.handleGenerate
                  (fun _ _ =>
                     Ai.Response 200
                       (Ai.Object None
                          {| Ai.quizQuestions :=
                               Some [QuizTab.Build_QuizQuestion "q1" "One?" (Some ["a"; "b"])
                                       (Some 0%Z) None;
                                     QuizTab.Build_QuizQuestion "q2" "Two?" None None
                                       (Some "yes")] |}))
                  Sample.notebook QuizTab.initial)))
     <> QuizTab.Question None.
Proof.
  split; [reflexivity|].
  refine (proj1 (quiz_question_in_range _ _)).
  apply QuizTab.Reachable_next.
  - apply QuizTab.Reachable_generate; [apply QuizTab.Reachable_initial | discriminate].
  - discriminate.
Defined.

(** X23: after a quiz of [n] questions, [n] at least 1, has been
    generated, [k] clicks on the button below the question lead to
    question number [min k (n-1)] (counted from 0), and the results are
    shown exactly when [k] is at least [n]. *)
Theorem quiz_results_after_last (http : Ai.Http (Ai.QuizBody QuizTab.QuizQuestion))
    (notebook : Notebook.t) (st : QuizTab.State)
    (qs : list QuizTab.QuizQuestion) (k : nat) :
  Ai.generateQuiz http (Notebook.id notebook) 5 = inr (Some qs) ->
  qs <> [] ->
  QuizTab.currentIndex
    (Nat.iter k QuizTab.nextQuestion (fst (QuizTab.handleGenerate http notebook st)))
  = Z.min (Z.of_nat k) (Z.of_nat (List.length qs) - 1)
  /\ QuizTab.showResults
       (Nat.iter k QuizTab.nextQuestion (fst (QuizTab.handleGenerate http notebook st)))
     = (List.length qs <=? k)%nat
  /\ QuizTab.questions
       (Nat.iter k QuizTab.nextQuestion (fst (QuizTab.handleGenerate http notebook st)))
     = Some qs.
Proof.
  intros Hgen Hne. unfold QuizTab.handleGenerate. rewrite Hgen. cbn [fst].
  rewrite (nextQuestion_iter qs [] false k Hne). now repeat split.
Qed.

(** X24: in the results, a question answered by choosing one of its
    options is never marked correct, not even when the option chosen is
    the right one: the answer recorded is the index of the option and
    the value it is compared with is the text of the right option.  For
    a question without options, a typed answer is marked correct exactly
    when it is, character for character, the expected answer. *)
Theorem quiz_chosen_option_never_correct (st : QuizTab.State) (q : QuizTab.QuizQuestion) :
  (forall idx,
     QuizTab.isCorrect (QuizTab.recordAnswer st (QuizTab.id q) (QuizTab.Chosen idx)) q
     = false)
  /\ (forall typed,
        QuizTab.options q = None ->
        (QuizTab.isCorrect (QuizTab.recordAnswer st (QuizTab.id q) (QuizTab.Written typed)) q
         = true
         <-> QuizTab.answer q = Some typed)).
Proof.
  unfold QuizTab.isCorrect, QuizTab.recordAnswer.
  cbn [QuizTab.answers QuizTab.answerOf]. rewrite String.eqb_refl. split.
  - intros idx. cbn. now destruct (QuizTab.correctOf q).
  - intros typed Hopt. unfold QuizTab.correctOf. rewrite Hopt. cbn.
    destruct (QuizTab.answer q) as [expected|].
    + rewrite String.eqb_eq. split; congruence.
    + split; discriminate.
Qed.

Lemma quiz_results_after_last_two :
  QuizTab.showResults
    (Nat.iter 2 QuizTab.nextQuestion
       (fst (QuizTab.handleGenerate
               (fun _ _ =>
                  Ai.Response 200
                    (Ai.Object None
                       {| Ai.quizQuestions :=
                            Some [QuizTab.Build_QuizQuestion "q1" "One?" (Some ["a"; "b"])
                                    (Some 0%Z) None;
                                  QuizTab.Build_QuizQuestion "q2" "Two?" None None
                                    (Some "yes")] |}))
               Sample.notebook QuizTab.initial)))
  = true.
Proof.
  refine (proj1 (proj2 (quiz_results_after_last
                   (fun _ _ =>
                      Ai.Response 200
                        (Ai.Object None
                           {| Ai.quizQuestions :=
                                Some [QuizTab.Build_QuizQuestion "q1" "One?"
                                        (Some ["a"; "b"]) (Some 0%Z) None;
                                      QuizTab.Build_QuizQuestion "q2" "Two?" None None
                                        (Some "yes")] |}))
                   Sample.notebook QuizTab.initial _ 2 eq_refl _))).
  discriminate.
Defined.

(** ** Choosing a file twice *)

(** X25: the title field is filled with the name of the first file
    chosen and is not refreshed when another file is chosen afterwards:
    with no title typed, choosing file [a] and then file [b] and adding
    gives a source with the content and the file name of [b] under the
    title of [a]. *)
Theorem second_file_keeps_first_title (w : World) (f : SourcesTab.Form)
    (a b : File.t) (moreA moreB : list File.t) (ft : FileType.t) :
  SourcesTab.activeModal f = Some Modal.file ->
  SourcesTab.fileType f = Some ft ->
  SourcesTab.titleValue f = "" ->
  File.name a <> "" ->
  Js.startsWith (File.type b) "text/" = false ->
  SourcesTab.handleAddSource w
    (SourcesTab.handleFileSelect (SourcesTab.handleFileSelect f (a :: moreA)) (b :: moreB))
  = SourcesTab.Added
      (Source.mk (randomUUID w) (FileType.toSourceType ft) (File.name a)
         (Ai.processFileWithGemini b (File.type b)) (now w)
         [("filename", MetaString (File.name b)); ("size", MetaNumber (File.size b))]).
Proof.
  intros Hm Hft Htitle Hname Hmime.
  apply truthy_true_iff in Hname.
  unfold SourcesTab.handleAddSource.
  rewrite (handleAddSource_file w _ b ft); [| exact Hm | reflexivity | exact Hft].
  cbn [SourcesTab.handleFileSelect SourcesTab.titleValue].
  rewrite Htitle, orElse_empty.
  assert (Hkeep : forall other, orElse (File.name a) other = File.name a).
  { intros other. unfold orElse. now rewrite Hname. }
  rewrite !Hkeep.
  assert (Hc : Js.truthy (Ai.processFileWithGemini b (File.type b)) = true).
  { unfold Ai.processFileWithGemini, tryCatch. now rewrite Hmime. }
  now rewrite Hc.
Qed.

Lemma second_file_keeps_first_title_sample :
  exists s,
    SourcesTab.handleAddSource Sample.offline
      (SourcesTab.handleFileSelect
         (SourcesTab.handleFileSelect
            (Sample.form Modal.file (Some FileType.image) "" None)
            [File.mk "dog.png" "image/png" 10 None])
         [Sample.picture])
    = SourcesTab.Added s
    /\ Source.title s = "dog.png"
    /\ Source.metadata s = [("filename", MetaString "cat.png"); ("size", MetaNumber 2048)].
Proof.
  eexists. split.
  - apply (second_file_keeps_first_title Sample.offline
             (Sample.form Modal.file (Some FileType.image) "" None)
             (File.mk "dog.png" "image/png" 10 None) Sample.picture [] []
             FileType.image); try reflexivity. discriminate.
  - split; reflexivity.
Defined.

(** ** Retitling with padding *)

(** X26: an answer that differs from the current title only by white
    space around it is not recognised as unchanged: in a notebook whose
    sources have distinct ids, the edit goes through, the sources end up
    exactly as they were, and the notebook is stamped with the new
    time. *)
Theorem padded_title_restamps (notebook : Notebook.t) (source : Source.t)
    (newTitle : string) (now : Z) :
  In source (Notebook.sources notebook) ->
  NoDup (map Source.id (Notebook.sources notebook)) ->
  newTitle <> Source.title source ->
  Js.trim newTitle = Source.title source ->
  Source.title source <> "" ->
  Notebook.sources (editSourceTitle notebook source (Some newTitle) now)
  = Notebook.sources notebook
  /\ Notebook.updatedAt (editSourceTitle notebook source (Some newTitle) now) = now.
Proof.
  intros Hin Hnodup Hnew Htrim Hne.
  destruct (editSourceTitle_split notebook source newTitle now Hin Hnodup)
    as [Hat [before [after [Hold Hnew']]]]; [congruence | exact Hnew|].
  split; [|exact Hat].
  rewrite Hnew', Hold, Htrim. now destruct source.
Qed.

Lemma padded_title_restamps_sample :
  Notebook.sources (editSourceTitle Sample.notebook Sample.foo (Some "Foo  ") 2000)
  = Notebook.sources Sample.notebook
  /\ Notebook.updatedAt (editSourceTitle Sample.notebook Sample.foo (Some "Foo  ") 2000)
     = 2000%Z.
Proof.
  apply (padded_title_restamps Sample.notebook Sample.foo "Foo  " 2000).
  - simpl. tauto.
  - repeat constructor; simpl; intuition discriminate.
  - discriminate.
  - reflexivity.
  - discriminate.
Defined.
